(** * API 682 seal selector: the selection logic of [app.py]

    A shallow embedding of the rule-evaluation functions of [app.py]
    ([get_seal_category], [get_fluid_type_group], [get_seal_type],
    [get_arrangement], [get_barrier_fluid_recommendation]) and of the
    module-level script that calls them and displays their results,
    followed by the properties the specification states about them and by
    further properties read off the code.

    Conventions of the embedding.
    - Numeric inputs come from [st.number_input] with float bounds: they are
      finite floats, hence rationals, and are compared with integer literals
      only.  They are modelled as [Q]; the integer literals as [Z], injected
      with [inject_Z] at each comparison.
    - Python dicts are [gmap]s; a subscript [d[k]] on a missing key raises
      [KeyError], which the [outcome] type records.
    - Check-box inputs are [bool].  The mandated arrangement and the value
      returned by [get_arrangement] are dynamically typed ([None], an [int]
      or a [str]) and are modelled by [pyval]. *)

From Stdlib Require Import ZArith QArith Lqa Bool List Lia.
From stdpp Require Import base option list gmap strings pretty.

Local Open Scope string_scope.
Local Open Scope Z_scope.

(** ** Python values and operators *)

Module Py.

(** The dynamically typed values that reach [mandated_arrangement] and
    [arrangement]. *)
Inductive pyval : Type :=
| PyNone
| PyInt (n : Z)
| PyStr (s : string).

(** Truth value of an object, as tested by [if x:]. *)
Definition truthy (v : pyval) : bool :=
  match v with
  | PyNone => false
  | PyInt n => negb (n =? 0)
  | PyStr s => negb (String.eqb s EmptyString)
  end.

(** [==] on these values: an [int] never equals a [str] or [None]. *)
Definition py_eq (a b : pyval) : bool :=
  match a, b with
  | PyNone, PyNone => true
  | PyInt m, PyInt n => m =? n
  | PyStr s, PyStr t => String.eqb s t
  | _, _ => false
  end.

(** [x in [a, b, ...]] on a list. *)
Definition py_in (x : pyval) (l : list pyval) : bool :=
  existsb (py_eq x) l.

(** [any(iterable)] over booleans. *)
Definition py_any (l : list bool) : bool := existsb id l.

(** [d.values()] of a dict of booleans. *)
Definition dict_values (d : gmap string bool) : list bool :=
  (map_to_list d).*2.

(** [needle in hay] on strings: substring test, case sensitive. *)
Fixpoint str_contains (needle hay : string) : bool :=
  String.prefix needle hay ||
  match hay with
  | EmptyString => false
  | String _ rest => str_contains needle rest
  end.

(** Comparisons of a float with an integer literal. *)
Definition le_lit (x : Q) (n : Z) : bool := Qle_bool x (inject_Z n).
Definition lt_lit (x : Q) (n : Z) : bool := negb (Qle_bool (inject_Z n) x).
Definition gt_lit (x : Q) (n : Z) : bool := negb (Qle_bool x (inject_Z n)).

(** Result of running a piece of code that may raise [KeyError]. *)
Inductive outcome (A : Type) : Type :=
| Returns (a : A)
| KeyError.
Arguments Returns {A} a.
Arguments KeyError {A}.

(** An exception raised by a statement aborts the statements after it. *)
#[export] Instance outcome_bind : MBind outcome :=
  fun A B k c =>
    match c with
    | Returns a => k a
    | KeyError => KeyError
    end.

End Py.
Import Py.

(** ** Constants *)

(** [CATEGORY_LIMITS], a dict of dicts. *)
Definition CATEGORY_LIMITS : gmap Z (gmap string Z) :=
  {[ 1 := {[ "pressure" := 20; "temp" := 260; "speed" := 20 ]};
     2 := {[ "pressure" := 40; "temp" := 400; "speed" := 25 ]};
     3 := {[ "pressure" := 100; "temp" := 400; "speed" := 25 ]} ]}.

(** [CATEGORY_LIMITS[cat][field]]. *)
Definition limit (cat : Z) (field : string) : outcome Z :=
  match CATEGORY_LIMITS !! cat with
  | Some row =>
      match row !! field with
      | Some v => Returns v
      | None => KeyError
      end
  | None => KeyError
  end.

(** ** Selection logic *)

(** The condition of the [if] in the loop of [get_seal_category]; [and]
    evaluates its right operand only when the left one holds. *)
Definition within_limits (cat : Z) (pressure temperature speed : Q) : outcome bool :=
  lp ← limit cat "pressure";
  if le_lit pressure lp then
    lt ← limit cat "temp";
    if le_lit temperature lt then
      ls ← limit cat "speed";
      Returns (le_lit speed ls)
    else Returns false
  else Returns false.

(** [for cat in cats: if ...: return cat] followed by [return None]. *)
Fixpoint category_loop (cats : list Z) (pressure temperature speed : Q)
  : outcome (option Z) :=
  match cats with
  | [] => Returns None
  | cat :: rest =>
      b ← within_limits cat pressure temperature speed;
      if (b : bool) then Returns (Some cat)
      else category_loop rest pressure temperature speed
  end.

Definition get_seal_category (pressure temperature speed : Q) : outcome (option Z) :=
  category_loop [1; 2; 3] pressure temperature speed.

Definition get_fluid_type_group (fluid_type : string) (is_flashing : bool) : string :=
  if String.eqb fluid_type "Hydrocarbon" then
    if is_flashing then "Flashing Hydrocarbon" else "Nonflashing Hydrocarbon"
  else "Nonhydrocarbon".

(** [category] and [contaminants] are parameters of the Python function
    that its body never reads. *)
Definition get_seal_type (fluid_group : string) (temp pressure : Q)
    (category : option Z) (contaminants : gmap string bool) : string :=
  if String.eqb fluid_group "Nonhydrocarbon" then
    if lt_lit temp 80 then
      if lt_lit pressure 20 then "Type B" else "Engineered System"
    else "Engineered System"
  else if str_contains "Hydrocarbon" fluid_group then
    if str_contains "Nonflashing" fluid_group then
      if lt_lit temp 176 then
        if lt_lit pressure 20 then "Type A" else "Type C"
      else if lt_lit temp 280 then
        if lt_lit pressure 20 then "Type C" else "Engineered System"
      else "Engineered System"
    else
      if lt_lit temp 176 then
        if lt_lit pressure 20 then "Type A" else "Type C"
      else if lt_lit temp 260 then
        if lt_lit pressure 20 then "Type C" else "Engineered System"
      else "Engineered System"
  else "Type A".

(** The module-level names a function body reads without receiving them as
    arguments.  [get_arrangement] reads [contaminants], which the script
    binds before its only call; [CATEGORY_LIMITS] is never rebound and is a
    constant above. *)
Record globals : Type := Globals {
  contaminants : gmap string bool
}.

(** [get_arrangement]; the first argument is the module state in which the
    body runs, the others are the declared parameters in order. *)
Definition get_arrangement (g : globals) (fluid_group : string)
    (exposure_hazard vapor_risk environmental_limits solids polymerizing
     poor_lubricity low_density high_vapor_pressure : bool)
    (temp : Q) (zero_leakage : bool) (mandated_arrangement : pyval) : pyval :=
  if truthy mandated_arrangement then mandated_arrangement
  else if String.eqb fluid_group "Nonhydrocarbon"
          && py_any (dict_values (contaminants g)) then PyInt 3
  else if zero_leakage || exposure_hazard || vapor_risk || environmental_limits
          || gt_lit temp 260 || solids || polymerizing || poor_lubricity
          || low_density || high_vapor_pressure then PyInt 3
  else if py_any [solids; polymerizing; poor_lubricity; low_density;
                  high_vapor_pressure] then PyInt 2
  else PyInt 1.

Definition get_barrier_fluid_recommendation (fluid_type temp_range : string) : string :=
  if str_contains "Hydrocarbon" fluid_type then
    if String.eqb temp_range "Low" then "Mineral oil (2-10 cSt at operating temp)"
    else if String.eqb temp_range "Medium" then "Paraffin-based high purity oil"
    else "Synthetic-based oil"
  else "Water/ethylene glycol mixture (commercial antifreeze prohibited)".

(** ** The script *)

(** The values collected by the widgets, named as the script names them.
    [mandated_arrangement] is the selected option of the select box, one of
    [None], ["Arrangement 1"], ["Arrangement 2"], ["Arrangement 3"]. *)
Record inputs : Type := Inputs {
  pressure : Q;
  temperature : Q;
  speed : Q;
  fluid_type : string;
  is_flashing : bool;
  hazardous : bool;
  toxic : bool;
  flammable : bool;
  abrasive : bool;
  polymerizing : bool;
  poor_lubricity : bool;
  caustic : bool;
  h2s : bool;
  amines : bool;
  ammonia : bool;
  exposure_hazard : bool;
  vapor_risk : bool;
  environmental_limits : bool;
  monitoring_required : bool;
  zero_leakage : bool;
  low_density : bool;
  high_vapor_pressure : bool;
  mandated_arrangement : pyval
}.

(** The options of the "Mandated Arrangement" select box. *)
Definition mandate_options : list pyval :=
  [PyNone; PyStr "Arrangement 1"; PyStr "Arrangement 2"; PyStr "Arrangement 3"].

(** The values the script computes before it renders them. *)
Record recommendation : Type := Recommendation {
  category : option Z;
  fluid_group : string;
  seal_type : string;
  arrangement : pyval;
  barrier_fluid : string
}.

(** The dict literal bound to the global [contaminants]. *)
Definition contaminants_dict (caustic h2s amines ammonia abrasive : bool)
  : gmap string bool :=
  {[ "caustic" := caustic; "h2s" := h2s; "amines" := amines;
     "ammonia" := ammonia; "abrasive" := abrasive ]}.

(** ["Low" if temperature < 70 else "Medium" if temperature < 150 else "High"] *)
Definition temp_range (temperature : Q) : string :=
  if lt_lit temperature 70 then "Low"
  else if lt_lit temperature 150 then "Medium"
  else "High".

(** The statements under "Get recommendations", in order. *)
Definition recommend (i : inputs) : outcome recommendation :=
  category ← get_seal_category (pressure i) (temperature i) (speed i);
  let fluid_group := get_fluid_type_group (fluid_type i) (is_flashing i) in
  let g := Globals (contaminants_dict (caustic i) (h2s i) (amines i)
                      (ammonia i) (abrasive i)) in
  let seal_type :=
    get_seal_type fluid_group (temperature i) (pressure i) category
      (contaminants g) in
  let arrangement :=
    get_arrangement g fluid_group (exposure_hazard i) (vapor_risk i)
      (environmental_limits i) (abrasive i) (polymerizing i)
      (poor_lubricity i) (low_density i) (high_vapor_pressure i)
      (temperature i) (zero_leakage i) (mandated_arrangement i) in
  let barrier_fluid :=
    if py_in arrangement [PyInt 2; PyInt 3]
    then get_barrier_fluid_recommendation (fluid_type i) (temp_range (temperature i))
    else "Not required" in
  Returns (Recommendation category fluid_group seal_type arrangement barrier_fluid).

(** [{1: ..., 2: ..., 3: ...}.get(arrangement)] of the display code: the
    description looked up under the arrangement, [None] when it is no key. *)
Definition arr_desc (arrangement : pyval) : option string :=
  match arrangement with
  | PyInt n =>
      ({[ 1 := "Single Seal (Arrangement 1)";
          2 := "Tandem Seals (Arrangement 2)";
          3 := "Double Seals (Arrangement 3)" ]} : gmap Z string) !! n
  | _ => None
  end.

(** The widgets' initial values. *)
Definition default_inputs : inputs :=
  {| pressure := 15; temperature := 100; speed := 10;
     fluid_type := "Hydrocarbon"; is_flashing := false;
     hazardous := false; toxic := false; flammable := false;
     abrasive := false; polymerizing := false; poor_lubricity := false;
     caustic := false; h2s := false; amines := false; ammonia := false;
     exposure_hazard := false; vapor_risk := false;
     environmental_limits := false; monitoring_required := false;
     zero_leakage := false; low_density := false;
     high_vapor_pressure := false; mandated_arrangement := PyNone |}.

(** The inputs of an evaluation in which the user selects "Arrangement 2"
    in the select box and leaves every other widget as it is. *)
Definition mandated_inputs : inputs :=
  {| pressure := 15; temperature := 100; speed := 10;
     fluid_type := "Hydrocarbon"; is_flashing := false;
     hazardous := false; toxic := false; flammable := false;
     abrasive := false; polymerizing := false; poor_lubricity := false;
     caustic := false; h2s := false; amines := false; ammonia := false;
     exposure_hazard := false; vapor_risk := false;
     environmental_limits := false; monitoring_required := false;
     zero_leakage := false; low_density := false;
     high_vapor_pressure := false;
     mandated_arrangement := PyStr "Arrangement 2" |}.

(** ** The display code *)

(** The calls the display code makes on the page, in order; an expander
    holds the calls made inside its [with] block. *)
#[local] Unset Elimination Schemes.
Inductive event : Type :=
| Divider
| Subheader (text : string)
| Success (text : string)
| Info (text : string)
| Error (text : string)
| Markdown (text : string)
| Caption (text : string)
| Expander (label : string) (expanded : bool) (body : list event).
#[local] Set Elimination Schemes.

(** The line feed of a triple-quoted string. *)
Definition nl : string := String (Ascii.ascii_of_nat 10) EmptyString.

(** How a value is rendered inside an f-string. *)
Definition py_str (v : pyval) : string :=
  match v with
  | PyNone => "None"
  | PyInt n => pretty n
  | PyStr s => s
  end.

(** The category as a Python value: an [int] or [None]. *)
Definition category_value (category : option Z) : pyval :=
  match category with
  | Some c => PyInt c
  | None => PyNone
  end.

(** How the result of [dict.get] with string values is rendered. *)
Definition str_or_none (o : option string) : string :=
  match o with
  | Some s => s
  | None => "None"
  end.

(** [{1: ..., 2: ..., 3: ...}.get(category)] *)
Definition cat_desc (category : option Z) : option string :=
  match category with
  | Some c =>
      ({[ 1 := "General Service Conditions";
          2 := "Severe Service Conditions";
          3 := "Extreme Service Conditions" ]} : gmap Z string) !! c
  | None => None
  end.

(** [CATEGORY_LIMITS[category][field]] on the category as computed. *)
Definition limit_of (category : option Z) (field : string) : outcome Z :=
  match category with
  | Some c => limit c field
  | None => KeyError
  end.

(** [text if cond else ""] *)
Definition text_if (cond : bool) (text : string) : string :=
  if cond then text else EmptyString.

(** The f-string passed to the first [st.markdown] of the expander. *)
Definition requirements_text (category : option Z) (seal_type : string)
    (arrangement : pyval) : outcome string :=
  lp ← limit_of category "pressure";
  lt ← limit_of category "temp";
  ls ← limit_of category "speed";
  Returns (String.concat EmptyString
    [ nl;
      "        ### Category "; py_str (category_value category);
      " Requirements (Sheet 2)"; nl;
      "        - *Max Pressure*: "; pretty lp; " bar g"; nl;
      "        - *Max Temperature*: "; pretty lt; " °C"; nl;
      "        - *Max Speed*: "; pretty ls; " m/s"; nl;
      "        "; nl;
      "        ### "; seal_type; " Seal Features:"; nl;
      "        ";
      text_if (String.eqb seal_type "Type A") "- Elastomer secondary seals";
      nl;
      "        ";
      text_if (existsb (String.eqb seal_type) ["Type B"; "Type C"])
        "- Bellows design";
      nl;
      "        ";
      text_if (String.eqb seal_type "Engineered System")
        "- Engineered solution required";
      nl;
      "        "; nl;
      "        ### Arrangement "; py_str arrangement; " Requirements:"; nl;
      "        ";
      text_if (py_eq arrangement (PyInt 1)) "- No auxiliary system required";
      nl;
      "        ";
      text_if (py_eq arrangement (PyInt 2)) "- Buffer fluid system recommended";
      nl;
      "        ";
      text_if (py_eq arrangement (PyInt 3)) "- Barrier fluid system required";
      nl;
      "        ";
      text_if (py_eq arrangement (PyInt 3))
        "- Zero process leakage to atmosphere";
      nl;
      "        " ]).

(** The string passed to the second [st.markdown] of the expander. *)
Definition barrier_requirements_text : string :=
  String.concat EmptyString
    [ nl;
      "            *Barrier Fluid Requirements (Sheet 10):*"; nl;
      "            - Viscosity < 500 cSt at minimum temperature"; nl;
      "            - Initial boiling point > service temp + 28°C"; nl;
      "            - Flash point > service temperature (if oxygen present)"; nl;
      "            - Must not freeze at minimum ambient temperature"; nl;
      "            " ].

Definition out_of_scope_text : string :=
  "Operating conditions exceed API 682 scope. Consult Sheet 10 for special designs".

Definition footer_text : string :=
  "© API 682 4th Edition Seal Selection Tool | Refer to API Standard 682 for complete requirements".

(** The statements under "Display Results" and "Footer", run on the values
    computed by [recommend].  A [KeyError] would abort the page; the calls
    made before it are not kept in the result. *)
Definition display (r : recommendation) : outcome (list event) :=
  body ←
    (if truthy (category_value (category r)) then
       let cat_desc := cat_desc (category r) in
       let arr_desc := arr_desc (arrangement r) in
       text ← requirements_text (category r) (seal_type r) (arrangement r);
       Returns
         ([ Success (String.concat EmptyString
                       ["*Category "; py_str (category_value (category r));
                        "*: "; str_or_none cat_desc]);
            Success (String.append "*Seal Type*: " (seal_type r));
            Success (String.concat EmptyString
                       ["*"; str_or_none arr_desc; "*"]) ]
          ++ (if py_in (arrangement r) [PyInt 2; PyInt 3]
              then [Info (String.append "*Barrier/Buffer Fluid*: "
                            (barrier_fluid r))]
              else [])
          ++ [ Expander "📖 Standard Requirements" true
                 (Markdown text ::
                  (if py_eq (arrangement r) (PyInt 3)
                   then [Markdown barrier_requirements_text]
                   else [])) ])%list
     else Returns [Error out_of_scope_text]);
  Returns ([Divider; Subheader "Seal Recommendation"] ++ body
           ++ [Divider; Caption footer_text])%list.

(** One run of the page on the values of the widgets. *)
Definition run_app (i : inputs) : outcome (list event) :=
  r ← recommend i;
  display r.

(** An evaluation that differs from [i] in the four check boxes
    "Hazardous", "Toxic", "Flammable" and "Leakage Monitoring Required"
    only. *)
Definition with_unread_boxes (i : inputs) (hz tx fl mon : bool) : inputs :=
  {| pressure := pressure i; temperature := temperature i; speed := speed i;
     fluid_type := fluid_type i; is_flashing := is_flashing i;
     hazardous := hz; toxic := tx; flammable := fl;
     abrasive := abrasive i; polymerizing := polymerizing i;
     poor_lubricity := poor_lubricity i;
     caustic := caustic i; h2s := h2s i; amines := amines i;
     ammonia := ammonia i;
     exposure_hazard := exposure_hazard i; vapor_risk := vapor_risk i;
     environmental_limits := environmental_limits i;
     monitoring_required := mon;
     zero_leakage := zero_leakage i; low_density := low_density i;
     high_vapor_pressure := high_vapor_pressure i;
     mandated_arrangement := mandated_arrangement i |}.

(** An evaluation that differs from [i] in the "Flashing Fluid" check box
    only. *)
Definition with_flashing (i : inputs) (flashing : bool) : inputs :=
  {| pressure := pressure i; temperature := temperature i; speed := speed i;
     fluid_type := fluid_type i; is_flashing := flashing;
     hazardous := hazardous i; toxic := toxic i; flammable := flammable i;
     abrasive := abrasive i; polymerizing := polymerizing i;
     poor_lubricity := poor_lubricity i;
     caustic := caustic i; h2s := h2s i; amines := amines i;
     ammonia := ammonia i;
     exposure_hazard := exposure_hazard i; vapor_risk := vapor_risk i;
     environmental_limits := environmental_limits i;
     monitoring_required := monitoring_required i;
     zero_leakage := zero_leakage i; low_density := low_density i;
     high_vapor_pressure := high_vapor_pressure i;
     mandated_arrangement := mandated_arrangement i |}.

(** ** The vocabulary of the specification *)

(** The specification names fluid groups and seal types by tags; the code
    represents each by a string. *)
Inductive FluidGroup : Type :=
| FlashingHydrocarbon
| NonflashingHydrocarbon
| Nonhydrocarbon.

Inductive SealType : Type :=
| TypeA
| TypeB
| TypeC
| EngineeredSystem.

Definition group_name (fg : FluidGroup) : string :=
  match fg with
  | FlashingHydrocarbon => "Flashing Hydrocarbon"
  | NonflashingHydrocarbon => "Nonflashing Hydrocarbon"
  | Nonhydrocarbon => "Nonhydrocarbon"
  end.

Definition seal_name (st : SealType) : string :=
  match st with
  | TypeA => "Type A"
  | TypeB => "Type B"
  | TypeC => "Type C"
  | EngineeredSystem => "Engineered System"
  end.

(** The branch tables of the seal type selector as the specification words
    them: each test is the strict order of the rationals. *)
Definition selectSealType (fg : FluidGroup) (temp pressure : Q) : SealType :=
  match fg with
  | Nonhydrocarbon =>
      if Qlt_le_dec temp 80 then
        if Qlt_le_dec pressure 20 then TypeB else EngineeredSystem
      else EngineeredSystem
  | NonflashingHydrocarbon =>
      if Qlt_le_dec temp 176 then
        if Qlt_le_dec pressure 20 then TypeA else TypeC
      else if Qlt_le_dec temp 280 then
        if Qlt_le_dec pressure 20 then TypeC else EngineeredSystem
      else EngineeredSystem
  | FlashingHydrocarbon =>
      if Qlt_le_dec temp 176 then
        if Qlt_le_dec pressure 20 then TypeA else TypeC
      else if Qlt_le_dec temp 260 then
        if Qlt_le_dec pressure 20 then TypeC else EngineeredSystem
      else EngineeredSystem
  end.

(** The rules of the arrangement selector without a mandate, as the
    specification orders them; [any_contaminant] says that a contaminant
    flag is set. *)
Definition selectArrangement (fluid_group : string) (any_contaminant : bool)
    (zero_leakage exposure_hazard vapor_risk environmental_limits : bool)
    (temp : Q) (solids polymerizing poor_lubricity low_density
     high_vapor_pressure : bool) : Z :=
  if bool_decide (fluid_group = "Nonhydrocarbon") && any_contaminant then 3
  else if zero_leakage || exposure_hazard || vapor_risk || environmental_limits
          || (if Qlt_le_dec 260 temp then true else false)
          || solids || polymerizing || poor_lubricity || low_density
          || high_vapor_pressure then 3
  else if solids || polymerizing || poor_lubricity || low_density
          || high_vapor_pressure then 2
  else 1.

(** ** Evaluations on sample inputs *)

Example cat_default : get_seal_category 15 100 10 = Returns (Some 1).
Proof. vm_compute. reflexivity. Qed.

Example cat_out : get_seal_category 150 450 30 = Returns None.
Proof. vm_compute. reflexivity. Qed.

Example recommend_default :
  recommend default_inputs =
  Returns (Recommendation (Some 1) "Nonflashing Hydrocarbon" "Type A" (PyInt 1)
             "Not required").
Proof. vm_compute. reflexivity. Qed.

(** ** Comparisons *)

Section Comparisons.
Local Open Scope Q_scope.

Lemma le_lit_true (x : Q) (n : Z) : le_lit x n = true <-> x <= inject_Z n.
Proof. unfold le_lit. apply Qle_bool_iff. Qed.

Lemma le_lit_false (x : Q) (n : Z) : le_lit x n = false <-> inject_Z n < x.
Proof.
  unfold le_lit. rewrite <- not_true_iff_false, Qle_bool_iff.
  split; [apply Qnot_le_lt | apply Qlt_not_le].
Qed.

Lemma lt_lit_true (x : Q) (n : Z) : lt_lit x n = true <-> x < inject_Z n.
Proof.
  unfold lt_lit. rewrite negb_true_iff, <- not_true_iff_false, Qle_bool_iff.
  split; [apply Qnot_le_lt | apply Qlt_not_le].
Qed.

Lemma lt_lit_false (x : Q) (n : Z) : lt_lit x n = false <-> inject_Z n <= x.
Proof. unfold lt_lit. rewrite negb_false_iff. apply Qle_bool_iff. Qed.

Lemma gt_lit_true (x : Q) (n : Z) : gt_lit x n = true <-> inject_Z n < x.
Proof. unfold gt_lit. rewrite negb_true_iff. apply le_lit_false. Qed.

(** A strict test of the code agrees with the decision of the order. *)
Lemma lt_lit_dec (A : Type) (x : Q) (n : Z) (a b : A) :
  (if lt_lit x n then a else b) = (if Qlt_le_dec x (inject_Z n) then a else b).
Proof.
  destruct (Qlt_le_dec x (inject_Z n)) as [H | H].
  - apply lt_lit_true in H. now rewrite H.
  - apply lt_lit_false in H. now rewrite H.
Qed.

Lemma gt_lit_dec (A : Type) (x : Q) (n : Z) (a b : A) :
  (if gt_lit x n then a else b) = (if Qlt_le_dec (inject_Z n) x then a else b).
Proof.
  destruct (Qlt_le_dec (inject_Z n) x) as [H | H].
  - apply gt_lit_true in H. now rewrite H.
  - unfold gt_lit. apply Qle_bool_iff in H. now rewrite H.
Qed.

End Comparisons.

(** ** Category classifier *)

Lemma limit_values :
  limit 1 "pressure" = Returns 20 /\ limit 1 "temp" = Returns 260 /\
  limit 1 "speed" = Returns 20 /\
  limit 2 "pressure" = Returns 40 /\ limit 2 "temp" = Returns 400 /\
  limit 2 "speed" = Returns 25 /\
  limit 3 "pressure" = Returns 100 /\ limit 3 "temp" = Returns 400 /\
  limit 3 "speed" = Returns 25.
Proof. repeat split; vm_compute; reflexivity. Qed.

(** No subscript of the loop raises: the three tests are decided in turn. *)
Lemma get_seal_category_unfold (p t s : Q) :
  get_seal_category p t s =
  Returns
    (if le_lit p 20 && le_lit t 260 && le_lit s 20 then Some 1
     else if le_lit p 40 && le_lit t 400 && le_lit s 25 then Some 2
     else if le_lit p 100 && le_lit t 400 && le_lit s 25 then Some 3
     else None).
Proof.
  destruct limit_values as (E1 & E2 & E3 & E4 & E5 & E6 & E7 & E8 & E9).
  unfold get_seal_category, category_loop, within_limits.
  rewrite E1, E2, E3, E4, E5, E6, E7, E8, E9. cbn [mbind outcome_bind].
  destruct (le_lit p 20), (le_lit t 260), (le_lit s 20); cbn;
    destruct (le_lit p 40), (le_lit t 400), (le_lit s 25); cbn;
    destruct (le_lit p 100); reflexivity.
Qed.

(** The test of one tier, read in the order of the rationals. *)
Lemma tier_test (p t s : Q) (P T S : Z) :
  (le_lit p P && le_lit t T && le_lit s S = true ->
     (p <= inject_Z P /\ t <= inject_Z T /\ s <= inject_Z S)%Q) /\
  (le_lit p P && le_lit t T && le_lit s S = false ->
     (inject_Z P < p \/ inject_Z T < t \/ inject_Z S < s)%Q).
Proof.
  split.
  - rewrite !andb_true_iff, !le_lit_true. tauto.
  - rewrite !andb_false_iff, !le_lit_false. tauto.
Qed.

(** C1. [get_seal_category] returns the first tier, in the order 1, 2, 3,
    whose three limits (tier 1: 20 bar, 260 C, 20 m/s; tier 2: 40, 400, 25;
    tier 3: 100, 400, 25) are all at or above the measured pressure,
    temperature and speed.  Every input within the limits of tier 1 gives 1,
    and the result is [None] exactly when the input exceeds tier 3, that is
    when the pressure is above 100, the temperature above 400 or the speed
    above 25, as at (150, 450, 30). *)
Theorem get_seal_category_first_tier (p t s : Q) :
  (get_seal_category p t s = Returns (Some 1) <->
     (p <= 20 /\ t <= 260 /\ s <= 20)%Q) /\
  (get_seal_category p t s = Returns (Some 2) <->
     ~ (p <= 20 /\ t <= 260 /\ s <= 20)%Q /\
     (p <= 40 /\ t <= 400 /\ s <= 25)%Q) /\
  (get_seal_category p t s = Returns (Some 3) <->
     ~ (p <= 20 /\ t <= 260 /\ s <= 20)%Q /\
     ~ (p <= 40 /\ t <= 400 /\ s <= 25)%Q /\
     (p <= 100 /\ t <= 400 /\ s <= 25)%Q) /\
  (get_seal_category p t s = Returns None <->
     (100 < p \/ 400 < t \/ 25 < s)%Q) /\
  get_seal_category 150 450 30 = Returns None.
Proof.
  rewrite get_seal_category_unfold.
  destruct (tier_test p t s 20 260 20) as [A1 B1];
    destruct (tier_test p t s 40 400 25) as [A2 B2];
    destruct (tier_test p t s 100 400 25) as [A3 B3].
  destruct (le_lit p 20 && le_lit t 260 && le_lit s 20);
    destruct (le_lit p 40 && le_lit t 400 && le_lit s 25);
    destruct (le_lit p 100 && le_lit t 400 && le_lit s 25).
  all: repeat match goal with
         | H : true = true -> _ |- _ => specialize (H eq_refl)
         | H : false = false -> _ |- _ => specialize (H eq_refl)
         | H : true = false -> _ |- _ => clear H
         | H : false = true -> _ |- _ => clear H
         end.
  all: unfold inject_Z in *; repeat split; intros;
    try reflexivity; try discriminate; try (vm_compute; reflexivity);
    try (intuition lra); exfalso; intuition lra.
Qed.

(** ** Fluid group classifier *)

(** C9. [get_fluid_type_group] maps Hydrocarbon to FlashingHydrocarbon when
    the fluid is flashing and to NonflashingHydrocarbon when it is not, and
    maps Nonhydrocarbon to Nonhydrocarbon whatever the flashing flag is. *)
Theorem get_fluid_type_group_mapping (is_flashing : bool) :
  get_fluid_type_group "Hydrocarbon" true = group_name FlashingHydrocarbon /\
  get_fluid_type_group "Hydrocarbon" false = group_name NonflashingHydrocarbon /\
  get_fluid_type_group "Nonhydrocarbon" is_flashing = group_name Nonhydrocarbon.
Proof. repeat split. Qed.

(** The classifier only produces names of fluid groups. *)
Lemma get_fluid_type_group_valid (fluid_type : string) (is_flashing : bool) :
  exists fg, get_fluid_type_group fluid_type is_flashing = group_name fg.
Proof.
  unfold get_fluid_type_group.
  destruct (String.eqb fluid_type "Hydrocarbon"), is_flashing;
    [ exists FlashingHydrocarbon | exists NonflashingHydrocarbon
    | exists Nonhydrocarbon | exists Nonhydrocarbon ]; reflexivity.
Qed.

(** ** Seal type selector *)

(** The string tests that dispatch on the fluid group. *)
Lemma group_dispatch (fg : FluidGroup) :
  String.eqb (group_name fg) "Nonhydrocarbon" =
    match fg with Nonhydrocarbon => true | _ => false end /\
  str_contains "Hydrocarbon" (group_name fg) =
    match fg with Nonhydrocarbon => false | _ => true end /\
  str_contains "Nonflashing" (group_name fg) =
    match fg with NonflashingHydrocarbon => true | _ => false end.
Proof. destruct fg; repeat split. Qed.

(** C2. On each of the three fluid groups [get_seal_type] follows its branch
    table.  Nonhydrocarbon: below 80 degrees TypeB under 20 bar and
    EngineeredSystem otherwise, from 80 degrees EngineeredSystem.
    NonflashingHydrocarbon: below 176 degrees TypeA under 20 bar and TypeC
    otherwise, from 176 and below 280 degrees TypeC under 20 bar and
    EngineeredSystem otherwise, from 280 degrees EngineeredSystem.
    FlashingHydrocarbon: the same with 260 in place of 280.  Every test is
    strict, so a temperature of exactly 176 or a pressure of exactly 20
    falls to the next bracket. *)
Theorem get_seal_type_tables (fg : FluidGroup) (temp pressure : Q)
    (category : option Z) (contaminants : gmap string bool) :
  get_seal_type (group_name fg) temp pressure category contaminants =
    seal_name (selectSealType fg temp pressure) /\
  get_seal_type (group_name NonflashingHydrocarbon) 176 10 category contaminants =
    seal_name TypeC /\
  get_seal_type (group_name FlashingHydrocarbon) 176 10 category contaminants =
    seal_name TypeC /\
  get_seal_type (group_name NonflashingHydrocarbon) 100 20 category contaminants =
    seal_name TypeC /\
  get_seal_type (group_name NonflashingHydrocarbon) 280 10 category contaminants =
    seal_name EngineeredSystem /\
  get_seal_type (group_name FlashingHydrocarbon) 260 10 category contaminants =
    seal_name EngineeredSystem /\
  get_seal_type (group_name Nonhydrocarbon) 80 10 category contaminants =
    seal_name EngineeredSystem /\
  get_seal_type (group_name Nonhydrocarbon) 10 20 category contaminants =
    seal_name EngineeredSystem.
Proof.
  split; [| repeat split].
  unfold get_seal_type.
  destruct (group_dispatch fg) as (E1 & E2 & E3). rewrite E1, E2, E3.
  destruct fg; cbn [selectSealType]; rewrite !lt_lit_dec; unfold inject_Z;
    repeat match goal with
      | |- context [Qlt_le_dec ?x ?y] => destruct (Qlt_le_dec x y)
      end; reflexivity.
Qed.

(** The last [return] of [get_seal_type] is not reached on a fluid group. *)
Lemma get_seal_type_default_unreached (fg : FluidGroup) :
  String.eqb (group_name fg) "Nonhydrocarbon"
  || str_contains "Hydrocarbon" (group_name fg) = true.
Proof. destruct fg; reflexivity. Qed.

(** ** Arrangement selector *)

(** [any] over the values of a dict finds a key bound to [True]. *)
Lemma py_any_dict_values (d : gmap string bool) :
  py_any (dict_values d) = true <-> exists k, d !! k = Some true.
Proof.
  unfold py_any, dict_values. rewrite existsb_exists. split.
  - intros (b & Hin & Hb). unfold id in Hb. subst b.
    apply list_elem_of_In, list_elem_of_fmap in Hin.
    destruct Hin as ([k b] & Hb & Hkb). cbn in Hb. subst b.
    exists k. now apply elem_of_map_to_list.
  - intros (k & Hk). exists true. split; [| reflexivity].
    apply list_elem_of_In, list_elem_of_fmap. exists (k, true).
    split; [reflexivity |]. now apply elem_of_map_to_list.
Qed.

(** On the dict the script builds, [any] is the disjunction of the five
    contaminant flags. *)
Lemma py_any_contaminants_dict (caustic h2s amines ammonia abrasive : bool) :
  py_any (dict_values (contaminants_dict caustic h2s amines ammonia abrasive)) =
  caustic || h2s || amines || ammonia || abrasive.
Proof.
  destruct caustic, h2s, amines, ammonia, abrasive; vm_compute; reflexivity.
Qed.

Lemma py_any_five (a b c d e : bool) :
  py_any [a; b; c; d; e] = a || b || c || d || e.
Proof. destruct a, b, c, d, e; reflexivity. Qed.

Lemma eqb_bool_decide (s t : string) : String.eqb s t = bool_decide (s = t).
Proof.
  destruct (String.eqb_spec s t) as [E | E].
  - now rewrite bool_decide_eq_true_2.
  - now rewrite bool_decide_eq_false_2.
Qed.

(** C3. With no mandated arrangement [get_arrangement] applies its rules in
    order, the first that matches giving the result: 3 if the fluid group
    is Nonhydrocarbon and one of the contaminant flags caustic, H2S, amines,
    ammonia, abrasive is set; else 3 if one of zero leakage, exposure
    hazard, vapor risk, environmental limits, temperature above 260,
    solids, polymerizing, poor lubricity, low density, high vapor pressure
    holds; else 2 if one of solids, polymerizing, poor lubricity, low
    density, high vapor pressure holds; else 1. *)
Theorem get_arrangement_rules (caustic h2s amines ammonia abrasive : bool)
    (fluid_group : string)
    (exposure_hazard vapor_risk environmental_limits solids polymerizing
     poor_lubricity low_density high_vapor_pressure : bool)
    (temp : Q) (zero_leakage : bool) :
  get_arrangement
    (Globals (contaminants_dict caustic h2s amines ammonia abrasive))
    fluid_group exposure_hazard vapor_risk environmental_limits solids
    polymerizing poor_lubricity low_density high_vapor_pressure temp
    zero_leakage PyNone =
  PyInt (selectArrangement fluid_group
           (caustic || h2s || amines || ammonia || abrasive)
           zero_leakage exposure_hazard vapor_risk environmental_limits temp
           solids polymerizing poor_lubricity low_density high_vapor_pressure).
Proof.
  unfold get_arrangement, selectArrangement. cbn [truthy contaminants].
  rewrite py_any_contaminants_dict, py_any_five, eqb_bool_decide.
  pose proof (gt_lit_dec bool temp 260 true false) as G.
  unfold inject_Z in G. rewrite <- G. clear G.
  destruct (bool_decide (fluid_group = "Nonhydrocarbon")
            && (caustic || h2s || amines || ammonia || abrasive));
    [reflexivity |].
  destruct (gt_lit temp 260), zero_leakage, exposure_hazard, vapor_risk,
    environmental_limits, solids, polymerizing, poor_lubricity, low_density,
    high_vapor_pressure; reflexivity.
Qed.

(** C4. A mandated arrangement that is set is returned as it is, whatever
    the module state, the fluid group, the flags and the temperature; so a
    mandate of 2 gives 2 even when zero leakage is required. *)
Theorem get_arrangement_mandated (g : globals) (fluid_group : string)
    (exposure_hazard vapor_risk environmental_limits solids polymerizing
     poor_lubricity low_density high_vapor_pressure : bool)
    (temp : Q) (zero_leakage : bool) (mandated_arrangement : pyval) :
  truthy mandated_arrangement = true ->
  get_arrangement g fluid_group exposure_hazard vapor_risk
    environmental_limits solids polymerizing poor_lubricity low_density
    high_vapor_pressure temp zero_leakage mandated_arrangement =
  mandated_arrangement.
Proof. intros H. unfold get_arrangement. now rewrite H. Qed.

Lemma get_arrangement_mandated_witness :
  truthy (PyInt 2) = true /\
  get_arrangement (Globals (contaminants_dict true true true true true))
    "Nonhydrocarbon" true true true true true true true true 300 true
    (PyInt 2) = PyInt 2.
Proof.
  split; [reflexivity |].
  apply (get_arrangement_mandated
           (Globals (contaminants_dict true true true true true))
           "Nonhydrocarbon" true true true true true true true true 300 true
           (PyInt 2)).
  reflexivity.
Defined.

(** Every override of the domain 1, 2, 3 and every label of the select box
    counts as set. *)
Lemma mandate_values_truthy (m : pyval) :
  In m [PyInt 1; PyInt 2; PyInt 3; PyStr "Arrangement 1";
        PyStr "Arrangement 2"; PyStr "Arrangement 3"] ->
  truthy m = true.
Proof. cbn. intuition (subst; reflexivity). Qed.

(** Without a mandate the result is one of the integers 1 and 3. *)
Lemma get_arrangement_unmandated_1_or_3 (g : globals) (fluid_group : string)
    (exposure_hazard vapor_risk environmental_limits solids polymerizing
     poor_lubricity low_density high_vapor_pressure : bool)
    (temp : Q) (zero_leakage : bool) :
  get_arrangement g fluid_group exposure_hazard vapor_risk
    environmental_limits solids polymerizing poor_lubricity low_density
    high_vapor_pressure temp zero_leakage PyNone = PyInt 1 \/
  get_arrangement g fluid_group exposure_hazard vapor_risk
    environmental_limits solids polymerizing poor_lubricity low_density
    high_vapor_pressure temp zero_leakage PyNone = PyInt 3.
Proof.
  unfold get_arrangement. cbn [truthy].
  destruct (String.eqb fluid_group "Nonhydrocarbon"
            && py_any (dict_values (contaminants g))); [now right |].
  destruct (gt_lit temp 260), zero_leakage, exposure_hazard, vapor_risk,
    environmental_limits, solids, polymerizing, poor_lubricity,
    low_density, high_vapor_pressure; cbn; auto.
Qed.

(** C10. With no mandated arrangement [get_arrangement] never returns 2:
    each flag of the rule for 2 (solids, polymerizing, poor lubricity, low
    density, high vapor pressure) is also tested by the preceding rule for
    3, which has returned whenever the rule for 2 would match; the result
    is 1 or 3. *)
Theorem get_arrangement_never_2 (g : globals) (fluid_group : string)
    (exposure_hazard vapor_risk environmental_limits solids polymerizing
     poor_lubricity low_density high_vapor_pressure : bool)
    (temp : Q) (zero_leakage : bool) :
  let r := get_arrangement g fluid_group exposure_hazard vapor_risk
             environmental_limits solids polymerizing poor_lubricity
             low_density high_vapor_pressure temp zero_leakage PyNone in
  (r = PyInt 1 \/ r = PyInt 3) /\ r <> PyInt 2 /\
  implb
    (py_any [solids; polymerizing; poor_lubricity; low_density;
             high_vapor_pressure])
    (zero_leakage || exposure_hazard || vapor_risk || environmental_limits
     || gt_lit temp 260 || solids || polymerizing || poor_lubricity
     || low_density || high_vapor_pressure) = true.
Proof.
  cbv zeta. split; [apply get_arrangement_unmandated_1_or_3 |]. split.
  - intros E.
    destruct (get_arrangement_unmandated_1_or_3 g fluid_group exposure_hazard
                vapor_risk environmental_limits solids polymerizing
                poor_lubricity low_density high_vapor_pressure temp
                zero_leakage) as [H | H]; rewrite H in E; discriminate E.
  - rewrite py_any_five.
    destruct (gt_lit temp 260), zero_leakage, exposure_hazard, vapor_risk,
      environmental_limits, solids, polymerizing, poor_lubricity,
      low_density, high_vapor_pressure; reflexivity.
Qed.

(** The contaminants reach [get_arrangement] through the module-level dict
    and not through a parameter: with the other arguments fixed, a dict
    with a contaminant set gives 3 where a dict with none gives 1. *)
Lemma get_arrangement_reads_global :
  get_arrangement (Globals (contaminants_dict true false false false false))
    "Nonhydrocarbon" false false false false false false false false 100
    false PyNone = PyInt 3 /\
  get_arrangement (Globals (contaminants_dict false false false false false))
    "Nonhydrocarbon" false false false false false false false false 100
    false PyNone = PyInt 1.
Proof. split; vm_compute; reflexivity. Qed.

(** ** Barrier fluid recommender *)

(** C8, as the specification words the texts: not what the code returns for
    a hydrocarbon in the low band, nor in the medium band, nor for a
    nonhydrocarbon. *)
Lemma barrier_fluid_texts_differ :
  get_barrier_fluid_recommendation "Hydrocarbon" (temp_range 50) <>
    "Mineral oil, 2–10 cSt at operating temperature" /\
  get_barrier_fluid_recommendation "Hydrocarbon" (temp_range 100) <>
    "Paraffin-based high-purity oil" /\
  get_barrier_fluid_recommendation "Nonhydrocarbon" (temp_range 50) <>
    "Water/ethylene-glycol mixture (commercial antifreeze prohibited)".
Proof. repeat split; vm_compute; discriminate. Qed.

(** C8, amended. The band of a temperature is Low below 70, Medium from 70
    and below 150, High from 150.  [get_barrier_fluid_recommendation] maps a
    hydrocarbon in the low band to "Mineral oil (2-10 cSt at operating
    temp)", in the medium band to "Paraffin-based high purity oil" and in
    the high band to "Synthetic-based oil", and maps a nonhydrocarbon in any
    band to "Water/ethylene glycol mixture (commercial antifreeze
    prohibited)". *)
Theorem get_barrier_fluid_recommendation_bands (t : Q) (band : string) :
  temp_range t =
    (if Qlt_le_dec t 70 then "Low"
     else if Qlt_le_dec t 150 then "Medium" else "High") /\
  get_barrier_fluid_recommendation "Hydrocarbon" (temp_range t) =
    (if Qlt_le_dec t 70 then "Mineral oil (2-10 cSt at operating temp)"
     else if Qlt_le_dec t 150 then "Paraffin-based high purity oil"
     else "Synthetic-based oil") /\
  get_barrier_fluid_recommendation "Hydrocarbon" "Low" =
    "Mineral oil (2-10 cSt at operating temp)" /\
  get_barrier_fluid_recommendation "Hydrocarbon" "Medium" =
    "Paraffin-based high purity oil" /\
  get_barrier_fluid_recommendation "Hydrocarbon" "High" =
    "Synthetic-based oil" /\
  get_barrier_fluid_recommendation "Nonhydrocarbon" band =
    "Water/ethylene glycol mixture (commercial antifreeze prohibited)".
Proof.
  assert (R : temp_range t =
    (if Qlt_le_dec t 70 then "Low"
     else if Qlt_le_dec t 150 then "Medium" else "High")).
  { unfold temp_range. rewrite !lt_lit_dec. reflexivity. }
  split; [exact R |]. split; [| repeat split].
  rewrite R. destruct (Qlt_le_dec t 70); [reflexivity |].
  destruct (Qlt_le_dec t 150); reflexivity.
Qed.

(** The recommender never produces the text the script uses when no
    auxiliary fluid is needed. *)
Lemma get_barrier_fluid_recommendation_required (fluid_type band : string) :
  get_barrier_fluid_recommendation fluid_type band <> "Not required".
Proof.
  unfold get_barrier_fluid_recommendation.
  destruct (str_contains "Hydrocarbon" fluid_type); [| discriminate].
  destruct (String.eqb band "Low"); [discriminate |].
  destruct (String.eqb band "Medium"); discriminate.
Qed.

(** ** The script as a whole *)

(** The script raises no [KeyError]: it always reaches its results. *)
Lemma recommend_returns (i : inputs) :
  exists category,
    get_seal_category (pressure i) (temperature i) (speed i) = Returns category /\
    recommend i =
    let g := Globals (contaminants_dict (caustic i) (h2s i) (amines i)
                        (ammonia i) (abrasive i)) in
    let fluid_group := get_fluid_type_group (fluid_type i) (is_flashing i) in
    let arrangement :=
      get_arrangement g fluid_group (exposure_hazard i) (vapor_risk i)
        (environmental_limits i) (abrasive i) (polymerizing i)
        (poor_lubricity i) (low_density i) (high_vapor_pressure i)
        (temperature i) (zero_leakage i) (mandated_arrangement i) in
    Returns
      (Recommendation category fluid_group
         (get_seal_type fluid_group (temperature i) (pressure i) category
            (contaminants g))
         arrangement
         (if py_in arrangement [PyInt 2; PyInt 3]
          then get_barrier_fluid_recommendation (fluid_type i)
                 (temp_range (temperature i))
          else "Not required")).
Proof.
  unfold recommend. rewrite get_seal_category_unfold.
  eexists. split; reflexivity.
Qed.

(** Membership in the list [[2, 3]]. *)
Lemma py_in_2_3 (v : pyval) :
  py_in v [PyInt 2; PyInt 3] = true <-> v = PyInt 2 \/ v = PyInt 3.
Proof.
  destruct v as [| n | s]; cbn.
  - split; [discriminate | intros [H | H]; discriminate H].
  - rewrite orb_false_r, orb_true_iff, !Z.eqb_eq.
    split; (intros [H | H]; [left | right]; congruence).
  - split; [discriminate | intros [H | H]; discriminate H].
Qed.

(** C7, as the specification words the text: with the widgets' initial
    values the arrangement is 1 and the barrier fluid is not the text
    "not required". *)
Lemma barrier_fluid_text_not_lowercase :
  exists r, recommend default_inputs = Returns r /\
            arrangement r = PyInt 1 /\ barrier_fluid r <> "not required".
Proof.
  eexists. split; [vm_compute; reflexivity |].
  split; [reflexivity | discriminate].
Qed.

(** C7, amended. The script always computes a recommendation; its barrier
    fluid differs from the text "Not required" only when the arrangement is
    2 or 3, and for arrangement 1 it is exactly "Not required". *)
Theorem barrier_fluid_only_for_2_3 (i : inputs) :
  exists r, recommend i = Returns r /\
            (barrier_fluid r <> "Not required" ->
             arrangement r = PyInt 2 \/ arrangement r = PyInt 3) /\
            (arrangement r = PyInt 1 -> barrier_fluid r = "Not required").
Proof.
  destruct (recommend_returns i) as (c & _ & E). cbv zeta in E.
  eexists. split; [exact E |]. cbn [arrangement barrier_fluid].
  match goal with
  | |- context [py_in ?a ?l] => destruct (py_in a l) eqn:M; set (arr := a) in *
  end.
  - apply py_in_2_3 in M. split; [intros _; exact M |].
    intros A. rewrite A in M. destruct M as [M | M]; discriminate M.
  - split; [intros N; now elim N | reflexivity].
Qed.

Lemma barrier_fluid_only_for_2_3_witness :
  exists r, recommend default_inputs = Returns r /\
            arrangement r = PyInt 1 /\ barrier_fluid r = "Not required".
Proof.
  destruct (barrier_fluid_only_for_2_3 default_inputs) as (r & E & _ & H).
  exists r. split; [exact E |].
  assert (A : arrangement r = PyInt 1).
  { vm_compute in E. injection E as <-. reflexivity. }
  split; [exact A | exact (H A)].
Defined.

(** C5. When "Arrangement 2" is selected as the mandated arrangement, the
    arrangement the script computes is the label itself, a string and none
    of the integers 1, 2, 3: the display code finds no description for it
    and the barrier fluid is reported as not required. *)
Theorem arrangement_mandated_label :
  In (mandated_arrangement mandated_inputs) mandate_options /\
  exists r, recommend mandated_inputs = Returns r /\
            arrangement r = PyStr "Arrangement 2" /\
            ~ In (arrangement r) [PyInt 1; PyInt 2; PyInt 3] /\
            arr_desc (arrangement r) = None /\
            barrier_fluid r = "Not required".
Proof.
  split; [cbn; tauto |].
  eexists. split; [vm_compute; reflexivity |]. cbn.
  repeat split; try reflexivity.
  intros [H | [H | [H | []]]]; discriminate H.
Qed.

(** Without a mandate the arrangement of the script is the integer 1 or 3,
    and the display code has a description for it. *)
Lemma arrangement_unmandated (i : inputs) :
  mandated_arrangement i = PyNone ->
  exists r, recommend i = Returns r /\
            (arrangement r = PyInt 1 \/ arrangement r = PyInt 3) /\
            is_Some (arr_desc (arrangement r)).
Proof.
  intros Hm. destruct (recommend_returns i) as (c & _ & E). cbv zeta in E.
  eexists. split; [exact E |]. cbn [arrangement]. rewrite Hm.
  match goal with
  | |- (?a = _ \/ _) /\ _ => set (arr := a)
  end.
  destruct (get_arrangement_unmandated_1_or_3
              (Globals (contaminants_dict (caustic i) (h2s i) (amines i)
                          (ammonia i) (abrasive i)))
              (get_fluid_type_group (fluid_type i) (is_flashing i))
              (exposure_hazard i) (vapor_risk i) (environmental_limits i)
              (abrasive i) (polymerizing i) (poor_lubricity i)
              (low_density i) (high_vapor_pressure i) (temperature i)
              (zero_leakage i)) as [H | H];
    fold arr in H; rewrite H; split; auto; vm_compute; eauto.
Qed.



(** ** Further properties of the category classifier *)

(** The test [x <= n] of the code survives lowering [x]. *)
Lemma le_lit_antitone (x y : Q) (n : Z) :
  (x <= y)%Q -> le_lit y n = true -> le_lit x n = true.
Proof.
  intros Hxy Hy. apply le_lit_true. apply le_lit_true in Hy.
  now apply Qle_trans with y.
Qed.

(** X1. A subscript [CATEGORY_LIMITS[cat][field]] raises [KeyError] exactly
    when [cat] is none of 1, 2, 3 or [field] is none of "pressure", "temp",
    "speed". *)
Theorem limit_key_error (cat : Z) (field : string) :
  limit cat field = KeyError <->
  ~ ((cat = 1 \/ cat = 2 \/ cat = 3) /\
     (field = "pressure" \/ field = "temp" \/ field = "speed")).
Proof.
  unfold limit, CATEGORY_LIMITS.
  assert (known : forall row : gmap string Z,
    (forall f, is_Some (row !! f) <->
               f = "pressure" \/ f = "temp" \/ f = "speed") ->
    match row !! field with Some v => Returns v | None => KeyError end
      = KeyError <->
    ~ (field = "pressure" \/ field = "temp" \/ field = "speed")).
  { intros row Hrow. rewrite <- Hrow. destruct (row !! field) as [v |].
    - split; [discriminate | intros H; elim H; eauto].
    - split; [intros _ [v Hv]; discriminate Hv | reflexivity]. }
  assert (keys : forall a b c (f : string),
    is_Some (({[ "pressure" := a; "temp" := b; "speed" := c ]}
                : gmap string Z) !! f) <->
    f = "pressure" \/ f = "temp" \/ f = "speed").
  { intros a b c f. rewrite !lookup_insert_is_Some, lookup_singleton_is_Some.
    split; [intros [H | [_ [H | [_ H]]]]; auto |].
    destruct (decide (f = "pressure")) as [-> | F1]; [auto |].
    destruct (decide (f = "temp")) as [-> | F2]; [auto |].
    intros [H | [H | H]]; auto; congruence. }
  destruct (decide (cat = 1)) as [-> | N1].
  { rewrite lookup_insert_eq, known by apply keys. tauto. }
  destruct (decide (cat = 2)) as [-> | N2].
  { rewrite lookup_insert_ne, lookup_insert_eq, known by (apply keys || lia).
    tauto. }
  destruct (decide (cat = 3)) as [-> | N3].
  { rewrite !lookup_insert_ne, lookup_singleton_eq, known
      by (apply keys || lia). tauto. }
  rewrite !lookup_insert_ne, lookup_singleton_ne by congruence.
  split; [intros _ | intros _; reflexivity].
  intros [[H | [H | H]] _]; congruence.
Qed.

(** X2. Lowering the pressure, the temperature or the speed never raises
    the category: if the higher operating point is in tier [c'], the lower
    one is in a tier [c] with [c <= c']. *)
Theorem get_seal_category_monotone (p t s p' t' s' : Q) (c' : Z) :
  (p <= p')%Q -> (t <= t')%Q -> (s <= s')%Q ->
  get_seal_category p' t' s' = Returns (Some c') ->
  exists c, get_seal_category p t s = Returns (Some c) /\ c <= c'.
Proof.
  intros Hp Ht Hs. rewrite !get_seal_category_unfold. intros E.
  assert (M : forall P T S,
             le_lit p' P && le_lit t' T && le_lit s' S = true ->
             le_lit p P && le_lit t T && le_lit s S = true).
  { intros P T S. rewrite !andb_true_iff. intros [[A B] C].
    repeat split; eapply le_lit_antitone; eassumption. }
  destruct (le_lit p' 20 && le_lit t' 260 && le_lit s' 20) eqn:E1.
  { rewrite (M _ _ _ E1). injection E as <-. exists 1. split; [reflexivity | lia]. }
  destruct (le_lit p' 40 && le_lit t' 400 && le_lit s' 25) eqn:E2.
  { rewrite (M _ _ _ E2). injection E as <-.
    destruct (le_lit p 20 && le_lit t 260 && le_lit s 20);
      eexists; (split; [reflexivity | lia]). }
  destruct (le_lit p' 100 && le_lit t' 400 && le_lit s' 25) eqn:E3;
    [| discriminate E].
  rewrite (M _ _ _ E3). injection E as <-.
  destruct (le_lit p 20 && le_lit t 260 && le_lit s 20);
    [| destruct (le_lit p 40 && le_lit t 400 && le_lit s 25)];
    eexists; (split; [reflexivity | lia]).
Qed.

Lemma get_seal_category_monotone_witness :
  exists c, get_seal_category 10 100 5 = Returns (Some c) /\ c <= 3.
Proof.
  apply (get_seal_category_monotone 10 100 5 60 300 22 3).
  - unfold Qle; simpl; lia.
  - unfold Qle; simpl; lia.
  - unfold Qle; simpl; lia.
  - vm_compute. reflexivity.
Defined.

(** X3. Tiers 2 and 3 share their temperature and speed limits, so only the
    pressure separates them: the category is 3 exactly when the pressure is
    above 40 and at most 100 while the temperature is at most 400 and the
    speed at most 25. *)
Theorem get_seal_category_3_by_pressure (p t s : Q) :
  get_seal_category p t s = Returns (Some 3) <->
  (40 < p /\ p <= 100 /\ t <= 400 /\ s <= 25)%Q.
Proof.
  rewrite get_seal_category_unfold.
  destruct (tier_test p t s 20 260 20) as [A1 B1];
    destruct (tier_test p t s 40 400 25) as [A2 B2];
    destruct (tier_test p t s 100 400 25) as [A3 B3].
  destruct (le_lit p 20 && le_lit t 260 && le_lit s 20);
    destruct (le_lit p 40 && le_lit t 400 && le_lit s 25);
    destruct (le_lit p 100 && le_lit t 400 && le_lit s 25).
  all: repeat match goal with
         | H : true = true -> _ |- _ => specialize (H eq_refl)
         | H : false = false -> _ |- _ => specialize (H eq_refl)
         | H : true = false -> _ |- _ => clear H
         | H : false = true -> _ |- _ => clear H
         end.
  all: unfold inject_Z in *; split; intros E;
    try discriminate E; try reflexivity;
    try (intuition lra); exfalso; intuition lra.
Qed.

(** X4. When a category is returned, the three limits the display looks up
    under it exist and bound the operating point: no [KeyError], and the
    pressure, temperature and speed are at most the limits shown. *)
Theorem get_seal_category_limits_hold (p t s : Q) (c : Z) :
  get_seal_category p t s = Returns (Some c) ->
  exists lp lt ls,
    limit c "pressure" = Returns lp /\ limit c "temp" = Returns lt /\
    limit c "speed" = Returns ls /\
    (p <= inject_Z lp /\ t <= inject_Z lt /\ s <= inject_Z ls)%Q.
Proof.
  rewrite get_seal_category_unfold. intros E.
  destruct (le_lit p 20 && le_lit t 260 && le_lit s 20) eqn:E1;
    [| destruct (le_lit p 40 && le_lit t 400 && le_lit s 25) eqn:E2;
       [| destruct (le_lit p 100 && le_lit t 400 && le_lit s 25) eqn:E3;
          [| discriminate E]]];
    injection E as <-;
    match goal with
    | H : _ && _ && _ = true |- _ => apply tier_test in H
    end;
    do 3 eexists; (split; [vm_compute; reflexivity |]);
    (split; [vm_compute; reflexivity |]);
    (split; [vm_compute; reflexivity | eassumption]).
Qed.

Lemma get_seal_category_limits_hold_witness :
  exists lp lt ls,
    limit 2 "pressure" = Returns lp /\ limit 2 "temp" = Returns lt /\
    limit 2 "speed" = Returns ls /\
    (30 <= inject_Z lp /\ 300 <= inject_Z lt /\ 22 <= inject_Z ls)%Q.
Proof.
  apply (get_seal_category_limits_hold 30 300 22 2).
  vm_compute. reflexivity.
Defined.

(** ** Substring tests *)

Lemma append_cons (a : Ascii.ascii) (s t : string) :
  String.append (String a s) t = String a (String.append s t).
Proof. reflexivity. Qed.

Lemma append_nil (t : string) : String.append EmptyString t = t.
Proof. reflexivity. Qed.

Lemma prefix_append (n h : string) :
  String.prefix n h = true <-> exists post, h = String.append n post.
Proof.
  revert h. induction n as [| a n IH]; intros h.
  - split; [intros _; now exists h | intros _; now destruct h].
  - destruct h as [| b h]; cbn [String.prefix].
    + split; [discriminate | intros [post E]; discriminate E].
    + destruct (Ascii.ascii_dec a b) as [-> | N].
      * rewrite IH.
        split; intros [post E]; exists post; rewrite append_cons in *;
          congruence.
      * split; [discriminate |].
        intros [post E]. rewrite append_cons in E. congruence.
Qed.

(** The test [needle in hay] holds exactly when [hay] is [needle] with
    something before and something after it. *)
Lemma str_contains_spec (n h : string) :
  str_contains n h = true <->
  exists pre post, h = String.append pre (String.append n post).
Proof.
  induction h as [| a h IH]; cbn [str_contains].
  - rewrite orb_false_r, prefix_append. split.
    + intros [post E]. now exists EmptyString, post.
    + intros (pre & post & E). destruct pre as [| b pre].
      * now exists post.
      * rewrite append_cons in E. discriminate E.
  - rewrite orb_true_iff, prefix_append, IH. split.
    + intros [[post E] | (pre & post & E)].
      * now exists EmptyString, post.
      * exists (String a pre), post. rewrite append_cons. now rewrite E.
    + intros (pre & post & E). destruct pre as [| b pre].
      * left. now exists post.
      * right. exists pre, post. rewrite append_cons in E. congruence.
Qed.

(** ** Further properties of the seal type selector *)

(** Reading the strict tests of [get_seal_type] in the order of the
    rationals. *)
Ltac lt_lit_cases :=
  repeat match goal with
    | |- context [lt_lit ?x ?n] =>
        let E := fresh "E" in
        destruct (lt_lit x n) eqn:E;
        [apply lt_lit_true in E | apply lt_lit_false in E]
    end;
  unfold inject_Z in *.

(** X5. [get_seal_type] returns "Type B" for no fluid group but
    "Nonhydrocarbon", and there exactly below 80 degrees and below 20 bar;
    hydrocarbons never get a Type B seal. *)
Theorem get_seal_type_B_iff (fluid_group : string) (temp pressure : Q)
    (category : option Z) (contaminants : gmap string bool) :
  get_seal_type fluid_group temp pressure category contaminants = "Type B" <->
  fluid_group = "Nonhydrocarbon" /\ (temp < 80)%Q /\ (pressure < 20)%Q.
Proof.
  unfold get_seal_type.
  destruct (String.eqb_spec fluid_group "Nonhydrocarbon") as [F | F];
    destruct (str_contains "Hydrocarbon" fluid_group);
    destruct (str_contains "Nonflashing" fluid_group);
    lt_lit_cases; split;
    try discriminate; try (intros _; repeat split; assumption);
    try (intros (? & ? & ?); try reflexivity; try contradiction; exfalso; lra).
Qed.

(** X6. A fluid group that is not "Nonhydrocarbon" and does not contain
    "Hydrocarbon" (the test is case sensitive) reaches the last [return]:
    the seal type is "Type A" at every temperature and pressure. *)
Theorem get_seal_type_default (fluid_group : string) (temp pressure : Q)
    (category : option Z) (contaminants : gmap string bool) :
  fluid_group <> "Nonhydrocarbon" ->
  (forall pre post,
     fluid_group <> String.append pre (String.append "Hydrocarbon" post)) ->
  get_seal_type fluid_group temp pressure category contaminants = "Type A".
Proof.
  intros F H. unfold get_seal_type.
  destruct (String.eqb_spec fluid_group "Nonhydrocarbon") as [E | _];
    [contradiction |].
  destruct (str_contains "Hydrocarbon" fluid_group) eqn:C; [| reflexivity].
  apply str_contains_spec in C. destruct C as (pre & post & E).
  now elim (H pre post).
Qed.

Lemma get_seal_type_default_witness :
  get_seal_type "hydrocarbon" 300 50 None ∅ = "Type A".
Proof.
  apply (get_seal_type_default "hydrocarbon" 300 50 None ∅).
  - discriminate.
  - intros pre post E.
    assert (C : str_contains "Hydrocarbon" "hydrocarbon" = true)
      by (apply str_contains_spec; eauto).
    vm_compute in C. discriminate C.
Defined.

(** X7. Once [get_seal_type] asks for an engineered system it keeps asking
    for one at every higher temperature and pressure, for any fluid group
    and whatever the unused arguments are. *)
Theorem get_seal_type_engineered_upward (fluid_group : string)
    (temp pressure temp' pressure' : Q) (category category' : option Z)
    (contaminants contaminants' : gmap string bool) :
  (temp <= temp')%Q -> (pressure <= pressure')%Q ->
  get_seal_type fluid_group temp pressure category contaminants =
    "Engineered System" ->
  get_seal_type fluid_group temp' pressure' category' contaminants' =
    "Engineered System".
Proof.
  intros Ht Hp. unfold get_seal_type.
  destruct (String.eqb fluid_group "Nonhydrocarbon");
    [| destruct (str_contains "Hydrocarbon" fluid_group);
       [destruct (str_contains "Nonflashing" fluid_group) |]];
    lt_lit_cases; intros Hes; try discriminate Hes; try reflexivity;
    exfalso; lra.
Qed.

Lemma get_seal_type_engineered_upward_witness :
  get_seal_type "Flashing Hydrocarbon" 300 50 (Some 2) ∅ = "Engineered System".
Proof.
  apply (get_seal_type_engineered_upward "Flashing Hydrocarbon"
           200 25 300 50 (Some 2) (Some 2) ∅ ∅).
  - unfold Qle; simpl; lia.
  - unfold Qle; simpl; lia.
  - vm_compute. reflexivity.
Defined.

(** X8. The tables of flashing and nonflashing hydrocarbons differ on one
    band only: from 260 and below 280 degrees under 20 bar a flashing
    hydrocarbon gets "Engineered System" where a nonflashing one gets
    "Type C"; everywhere else the two seal types are equal. *)
Theorem get_seal_type_flashing_band (temp pressure : Q)
    (category : option Z) (contaminants : gmap string bool) :
  ((260 <= temp /\ temp < 280 /\ pressure < 20)%Q ->
   get_seal_type "Flashing Hydrocarbon" temp pressure category contaminants =
     "Engineered System" /\
   get_seal_type "Nonflashing Hydrocarbon" temp pressure category contaminants =
     "Type C") /\
  (~ (260 <= temp /\ temp < 280 /\ pressure < 20)%Q ->
   get_seal_type "Flashing Hydrocarbon" temp pressure category contaminants =
   get_seal_type "Nonflashing Hydrocarbon" temp pressure category contaminants).
Proof.
  unfold get_seal_type.
  change (String.eqb "Flashing Hydrocarbon" "Nonhydrocarbon") with false.
  change (String.eqb "Nonflashing Hydrocarbon" "Nonhydrocarbon") with false.
  change (str_contains "Hydrocarbon" "Flashing Hydrocarbon") with true.
  change (str_contains "Hydrocarbon" "Nonflashing Hydrocarbon") with true.
  change (str_contains "Nonflashing" "Flashing Hydrocarbon") with false.
  change (str_contains "Nonflashing" "Nonflashing Hydrocarbon") with true.
  cbv iota.
  split; [intros (A & B & C) | intros N]; lt_lit_cases;
    try (split; reflexivity); try reflexivity; exfalso;
    try lra; apply N; repeat split; lra.
Qed.

Lemma get_seal_type_flashing_band_witness :
  get_seal_type "Flashing Hydrocarbon" 270 10 (Some 2) ∅ = "Engineered System" /\
  get_seal_type "Nonflashing Hydrocarbon" 270 10 (Some 2) ∅ = "Type C".
Proof.
  apply (get_seal_type_flashing_band 270 10 (Some 2) ∅).
  repeat split; unfold Qle, Qlt; simpl; lia.
Defined.

(** ** Further properties of the arrangement selector *)

(** Without a mandate the rule for 2 is never the one that decides. *)
Lemma get_arrangement_unmandated (g : globals) (fluid_group : string)
    (exposure_hazard vapor_risk environmental_limits solids polymerizing
     poor_lubricity low_density high_vapor_pressure : bool)
    (temp : Q) (zero_leakage : bool) :
  get_arrangement g fluid_group exposure_hazard vapor_risk
    environmental_limits solids polymerizing poor_lubricity low_density
    high_vapor_pressure temp zero_leakage PyNone =
  if (String.eqb fluid_group "Nonhydrocarbon"
      && py_any (dict_values (contaminants g)))
     || (zero_leakage || exposure_hazard || vapor_risk
         || environmental_limits || gt_lit temp 260 || solids
         || polymerizing || poor_lubricity || low_density
         || high_vapor_pressure)
  then PyInt 3 else PyInt 1.
Proof.
  unfold get_arrangement. cbn [truthy].
  destruct (String.eqb fluid_group "Nonhydrocarbon"
            && py_any (dict_values (contaminants g))); [reflexivity |].
  destruct (gt_lit temp 260), zero_leakage, exposure_hazard, vapor_risk,
    environmental_limits, solids, polymerizing, poor_lubricity,
    low_density, high_vapor_pressure; reflexivity.
Qed.

(** X9. A mandate that is given but falsy, such as the integer 0 or the
    empty string, is not returned: the rules are applied as if there were
    no mandate. *)
Theorem get_arrangement_falsy_mandate (g : globals) (fluid_group : string)
    (exposure_hazard vapor_risk environmental_limits solids polymerizing
     poor_lubricity low_density high_vapor_pressure : bool)
    (temp : Q) (zero_leakage : bool) (mandated_arrangement : pyval) :
  truthy mandated_arrangement = false ->
  get_arrangement g fluid_group exposure_hazard vapor_risk
    environmental_limits solids polymerizing poor_lubricity low_density
    high_vapor_pressure temp zero_leakage mandated_arrangement =
  get_arrangement g fluid_group exposure_hazard vapor_risk
    environmental_limits solids polymerizing poor_lubricity low_density
    high_vapor_pressure temp zero_leakage PyNone.
Proof. intros H. unfold get_arrangement. rewrite H. reflexivity. Qed.

Lemma get_arrangement_falsy_mandate_witness :
  get_arrangement (Globals ∅) "Nonhydrocarbon" false false false false false
    false false false 100 true (PyInt 0) =
  get_arrangement (Globals ∅) "Nonhydrocarbon" false false false false false
    false false false 100 true PyNone.
Proof.
  apply (get_arrangement_falsy_mandate (Globals ∅) "Nonhydrocarbon" false
           false false false false false false false 100 true (PyInt 0)).
  reflexivity.
Defined.

(** X10. Whatever dict the global [contaminants] holds, without a mandate
    the result is 3 exactly when the fluid group is "Nonhydrocarbon" and
    some key of the dict is bound to [True], or one of the ten conditions
    of the rule for 3 holds; otherwise it is 1.  An empty dict never
    triggers the first rule. *)
Theorem get_arrangement_3_iff (g : globals) (fluid_group : string)
    (exposure_hazard vapor_risk environmental_limits solids polymerizing
     poor_lubricity low_density high_vapor_pressure : bool)
    (temp : Q) (zero_leakage : bool) :
  let r := get_arrangement g fluid_group exposure_hazard vapor_risk
             environmental_limits solids polymerizing poor_lubricity
             low_density high_vapor_pressure temp zero_leakage PyNone in
  let severe :=
    (fluid_group = "Nonhydrocarbon" /\
     exists k, contaminants g !! k = Some true) \/
    zero_leakage = true \/ exposure_hazard = true \/ vapor_risk = true \/
    environmental_limits = true \/ (260 < temp)%Q \/ solids = true \/
    polymerizing = true \/ poor_lubricity = true \/ low_density = true \/
    high_vapor_pressure = true in
  (r = PyInt 3 <-> severe) /\ (r = PyInt 1 <-> ~ severe).
Proof.
  cbv zeta. rewrite get_arrangement_unmandated.
  rewrite <- py_any_dict_values.
  pose proof (gt_lit_true temp 260) as G. unfold inject_Z in G. rewrite <- G.
  clear G.
  match goal with
  | |- context [if ?b then _ else _] =>
      assert (B : b = true <->
        (fluid_group = "Nonhydrocarbon" /\
         py_any (dict_values (contaminants g)) = true) \/
        zero_leakage = true \/ exposure_hazard = true \/ vapor_risk = true \/
        environmental_limits = true \/ gt_lit temp 260 = true \/
        solids = true \/ polymerizing = true \/ poor_lubricity = true \/
        low_density = true \/ high_vapor_pressure = true);
      [| destruct b]
  end.
  - rewrite !orb_true_iff, andb_true_iff, String.eqb_eq. tauto.
  - rewrite <- B. split; split; try discriminate; auto. intros H. now elim H.
  - rewrite <- B. split; split; try discriminate; auto.
Qed.

(** X11. The global [contaminants] can change the result in one situation
    only: no mandate is in force, the fluid group is "Nonhydrocarbon", no
    flag is set and the temperature is at most 260.  In every other
    situation the result is the same in all module states. *)
Theorem get_arrangement_global_matters (g g' : globals) (fluid_group : string)
    (exposure_hazard vapor_risk environmental_limits solids polymerizing
     poor_lubricity low_density high_vapor_pressure : bool)
    (temp : Q) (zero_leakage : bool) (mandated_arrangement : pyval) :
  get_arrangement g fluid_group exposure_hazard vapor_risk
    environmental_limits solids polymerizing poor_lubricity low_density
    high_vapor_pressure temp zero_leakage mandated_arrangement <>
  get_arrangement g' fluid_group exposure_hazard vapor_risk
    environmental_limits solids polymerizing poor_lubricity low_density
    high_vapor_pressure temp zero_leakage mandated_arrangement ->
  truthy mandated_arrangement = false /\ fluid_group = "Nonhydrocarbon" /\
  zero_leakage || exposure_hazard || vapor_risk || environmental_limits
    || solids || polymerizing || poor_lubricity || low_density
    || high_vapor_pressure = false /\
  (temp <= 260)%Q.
Proof.
  unfold get_arrangement.
  destruct (truthy mandated_arrangement); [intros H; now elim H |].
  destruct (String.eqb_spec fluid_group "Nonhydrocarbon") as [F | F];
    [| intros H; now elim H].
  cbn [andb].
  destruct (zero_leakage || exposure_hazard || vapor_risk
            || environmental_limits || gt_lit temp 260 || solids
            || polymerizing || poor_lubricity || low_density
            || high_vapor_pressure) eqn:R.
  { destruct (py_any (dict_values (contaminants g)));
      destruct (py_any (dict_values (contaminants g')));
      intros H; now elim H. }
  intros _. rewrite !orb_false_iff in R.
  destruct R as (((((((((-> & ->) & ->) & ->) & G) & ->) & ->) & ->) & ->) & ->).
  repeat split; [assumption |].
  unfold gt_lit in G. apply negb_false_iff, Qle_bool_iff in G. exact G.
Qed.

Lemma get_arrangement_global_matters_witness :
  truthy PyNone = false /\ "Nonhydrocarbon" = "Nonhydrocarbon" /\
  false || false || false || false || false || false || false || false
    || false = false /\
  (100 <= 260)%Q.
Proof.
  apply (get_arrangement_global_matters
           (Globals (contaminants_dict true false false false false))
           (Globals (contaminants_dict false false false false false))
           "Nonhydrocarbon" false false false false false false false false
           100 false PyNone).
  vm_compute. discriminate.
Defined.

(** X12. Without a mandate, setting further flags or raising the
    temperature never lowers the arrangement: if the result is 3 it stays 3
    when every flag that was set is still set and the temperature is not
    lower. *)
Theorem get_arrangement_monotone (g : globals) (fluid_group : string)
    (eh vr el so po pl ld hv zl eh' vr' el' so' po' pl' ld' hv' zl' : bool)
    (temp temp' : Q) :
  implb eh eh' && implb vr vr' && implb el el' && implb so so'
    && implb po po' && implb pl pl' && implb ld ld' && implb hv hv'
    && implb zl zl' = true ->
  (temp <= temp')%Q ->
  get_arrangement g fluid_group eh vr el so po pl ld hv temp zl PyNone =
    PyInt 3 ->
  get_arrangement g fluid_group eh' vr' el' so' po' pl' ld' hv' temp' zl'
    PyNone = PyInt 3.
Proof.
  intros Hf Ht. rewrite !get_arrangement_unmandated.
  destruct (String.eqb fluid_group "Nonhydrocarbon"
            && py_any (dict_values (contaminants g))); [reflexivity |].
  cbn [orb].
  assert (G : gt_lit temp 260 = true -> gt_lit temp' 260 = true).
  { rewrite !gt_lit_true. intros G. now apply Qlt_le_trans with temp. }
  assert (M : zl || eh || vr || el || gt_lit temp 260 || so || po || pl
              || ld || hv = true ->
              zl' || eh' || vr' || el' || gt_lit temp' 260 || so' || po'
              || pl' || ld' || hv' = true).
  { rewrite !andb_true_iff, !implb_true_iff in Hf.
    rewrite !orb_true_iff. tauto. }
  destruct (zl || eh || vr || el || gt_lit temp 260 || so || po || pl
            || ld || hv); [| discriminate].
  intros _. now rewrite (M eq_refl).
Qed.

Lemma get_arrangement_monotone_witness :
  get_arrangement (Globals ∅) "Flashing Hydrocarbon" true true false false
    false false false false 150 false PyNone = PyInt 3.
Proof.
  apply (get_arrangement_monotone (Globals ∅) "Flashing Hydrocarbon"
           true false false false false false false false false
           true true false false false false false false false 100 150).
  - reflexivity.
  - unfold Qle; simpl; lia.
  - vm_compute. reflexivity.
Defined.

(** ** Further properties of the barrier fluid recommender *)

(** X13. The recommender answers with the water and glycol mixture exactly
    when the fluid type does not contain "Hydrocarbon" as a substring, the
    capital H included: "Nonhydrocarbon" and "hydrocarbon" are treated as
    nonhydrocarbons, the group names "Flashing Hydrocarbon" and
    "Nonflashing Hydrocarbon" as hydrocarbons. *)
Theorem get_barrier_fluid_recommendation_water_iff (fluid_type band : string) :
  get_barrier_fluid_recommendation fluid_type band =
    "Water/ethylene glycol mixture (commercial antifreeze prohibited)" <->
  ~ exists pre post,
      fluid_type = String.append pre (String.append "Hydrocarbon" post).
Proof.
  rewrite <- str_contains_spec. unfold get_barrier_fluid_recommendation.
  destruct (str_contains "Hydrocarbon" fluid_type).
  - split; [| intros H; now elim H].
    destruct (String.eqb band "Low"); [discriminate |].
    destruct (String.eqb band "Medium"); discriminate.
  - split; [discriminate | reflexivity].
Qed.

(** X14. The band is matched exactly: for a fluid type containing
    "Hydrocarbon" the synthetic oil is recommended exactly when the band is
    neither "Low" nor "Medium", so any other spelling, such as "low",
    counts as the high band. *)
Theorem get_barrier_fluid_recommendation_synthetic_iff (fluid_type band : string) :
  get_barrier_fluid_recommendation fluid_type band = "Synthetic-based oil" <->
  (exists pre post,
     fluid_type = String.append pre (String.append "Hydrocarbon" post)) /\
  band <> "Low" /\ band <> "Medium".
Proof.
  rewrite <- str_contains_spec. unfold get_barrier_fluid_recommendation.
  destruct (str_contains "Hydrocarbon" fluid_type);
    destruct (String.eqb_spec band "Low") as [L | L];
    destruct (String.eqb_spec band "Medium") as [M | M];
    split; try discriminate; try (intros (? & ? & ?); congruence);
    try (intros _; repeat split; assumption); try reflexivity.
Qed.

(** ** Further properties of the script *)

(** The record the script computes, field by field. *)
Lemma recommend_fields (i : inputs) :
  exists r,
    recommend i = Returns r /\
    get_seal_category (pressure i) (temperature i) (speed i) =
      Returns (category r) /\
    fluid_group r = get_fluid_type_group (fluid_type i) (is_flashing i) /\
    seal_type r =
      get_seal_type (fluid_group r) (temperature i) (pressure i) (category r)
        (contaminants_dict (caustic i) (h2s i) (amines i) (ammonia i)
           (abrasive i)) /\
    arrangement r =
      get_arrangement
        (Globals (contaminants_dict (caustic i) (h2s i) (amines i)
                    (ammonia i) (abrasive i)))
        (fluid_group r) (exposure_hazard i) (vapor_risk i)
        (environmental_limits i) (abrasive i) (polymerizing i)
        (poor_lubricity i) (low_density i) (high_vapor_pressure i)
        (temperature i) (zero_leakage i) (mandated_arrangement i) /\
    barrier_fluid r =
      if py_in (arrangement r) [PyInt 2; PyInt 3]
      then get_barrier_fluid_recommendation (fluid_type i)
             (temp_range (temperature i))
      else "Not required".
Proof.
  destruct (recommend_returns i) as (c & Ec & E). cbv zeta in E.
  eexists. split; [exact E |]. cbn. repeat split. exact Ec.
Qed.

(** X16. The check boxes "Hazardous", "Toxic", "Flammable" and "Leakage
    Monitoring Required" are collected but never read: changing them
    changes nothing in the recommendation. *)
Theorem recommend_ignores_unread_boxes (i : inputs) (hz tx fl mon : bool) :
  recommend (with_unread_boxes i hz tx fl mon) = recommend i.
Proof. destruct i. reflexivity. Qed.

(** X17. For a fluid type other than "Hydrocarbon" the "Flashing Fluid"
    check box has no effect on any field of the recommendation. *)
Theorem recommend_nonhydrocarbon_ignores_flashing (i : inputs) (flashing : bool) :
  fluid_type i <> "Hydrocarbon" ->
  recommend (with_flashing i flashing) = recommend i.
Proof.
  intros H. destruct i as [p t s ft fl]. cbn in H.
  unfold recommend, with_flashing. cbn.
  unfold get_fluid_type_group.
  destruct (String.eqb_spec ft "Hydrocarbon") as [E | _]; [contradiction |].
  reflexivity.
Qed.

Lemma recommend_nonhydrocarbon_ignores_flashing_witness :
  recommend
    (with_flashing
       (Inputs 15 60 10 "Nonhydrocarbon" false false false false false false
          false true false false false false false false false false false
          false PyNone) true) =
  recommend
    (Inputs 15 60 10 "Nonhydrocarbon" false false false false false false
       false true false false false false false false false false false
       false PyNone).
Proof.
  apply (recommend_nonhydrocarbon_ignores_flashing
           (Inputs 15 60 10 "Nonhydrocarbon" false false false false false
              false false true false false false false false false false
              false false false PyNone) true).
  discriminate.
Defined.

(** X15. In the script the barrier fluid is the text "Not required"
    exactly when the arrangement is neither the integer 2 nor the integer
    3: a recommendation is never that text, so the two cases cannot be
    confused. *)
Theorem barrier_fluid_not_required_iff (i : inputs) :
  exists r, recommend i = Returns r /\
            (barrier_fluid r = "Not required" <->
             arrangement r <> PyInt 2 /\ arrangement r <> PyInt 3).
Proof.
  destruct (recommend_fields i) as (r & E & _ & _ & _ & _ & B).
  exists r. split; [exact E |]. rewrite B.
  destruct (py_in (arrangement r) [PyInt 2; PyInt 3]) eqn:M.
  - apply py_in_2_3 in M. split.
    + intros H. now apply get_barrier_fluid_recommendation_required in H.
    + intros [N2 N3]. destruct M; contradiction.
  - split; [intros _ | reflexivity].
    split; intros A; rewrite A in M; discriminate M.
Qed.

(** X18. Whenever one of the labels "Arrangement 1", "Arrangement 2",
    "Arrangement 3" is selected as the mandate, whatever the other inputs
    are, the arrangement of the script is that label, the display code has
    no description for it and the barrier fluid is "Not required", also
    under "Arrangement 2" and "Arrangement 3". *)
Theorem recommend_label_mandate (i : inputs) :
  In (mandated_arrangement i)
     [PyStr "Arrangement 1"; PyStr "Arrangement 2"; PyStr "Arrangement 3"] ->
  exists r, recommend i = Returns r /\
            arrangement r = mandated_arrangement i /\
            arr_desc (arrangement r) = None /\
            barrier_fluid r = "Not required".
Proof.
  intros Hm. destruct (recommend_fields i) as (r & E & _ & _ & _ & A & B).
  exists r. split; [exact E |].
  assert (A' : arrangement r = mandated_arrangement i).
  { rewrite A. unfold get_arrangement.
    destruct Hm as [<- | [<- | [<- | []]]]; reflexivity. }
  split; [exact A' |]. rewrite B, A'.
  destruct Hm as [<- | [<- | [<- | []]]]; split; reflexivity.
Qed.

Lemma recommend_label_mandate_witness :
  exists r, recommend mandated_inputs = Returns r /\
            arrangement r = PyStr "Arrangement 2" /\
            arr_desc (arrangement r) = None /\
            barrier_fluid r = "Not required".
Proof.
  apply (recommend_label_mandate mandated_inputs).
  cbn. tauto.
Defined.

(** X19. Without a mandate the script knows two outcomes only: arrangement
    3 with the recommendation of [get_barrier_fluid_recommendation] for the
    fluid type and the band of the temperature, or arrangement 1 with
    "Not required". *)
Theorem recommend_unmandated_outcomes (i : inputs) :
  mandated_arrangement i = PyNone ->
  exists r, recommend i = Returns r /\
    ((arrangement r = PyInt 3 /\
      barrier_fluid r =
        get_barrier_fluid_recommendation (fluid_type i)
          (temp_range (temperature i))) \/
     (arrangement r = PyInt 1 /\ barrier_fluid r = "Not required")).
Proof.
  intros Hm. destruct (recommend_fields i) as (r & E & _ & _ & _ & A & B).
  exists r. split; [exact E |]. rewrite Hm in A. rewrite B.
  match type of A with
  | _ = get_arrangement ?g ?fg ?eh ?vr ?el ?so ?po ?pl ?ld ?hv ?t ?zl PyNone =>
      destruct (get_arrangement_unmandated_1_or_3 g fg eh vr el so po pl ld
                  hv t zl) as [H | H]
  end; rewrite H in A; rewrite A; [right | left]; split; reflexivity.
Qed.

Lemma recommend_unmandated_outcomes_witness :
  exists r, recommend default_inputs = Returns r /\
    ((arrangement r = PyInt 3 /\
      barrier_fluid r =
        get_barrier_fluid_recommendation "Hydrocarbon" (temp_range 100)) \/
     (arrangement r = PyInt 1 /\ barrier_fluid r = "Not required")).
Proof.
  apply (recommend_unmandated_outcomes default_inputs).
  reflexivity.
Defined.

(** X20. The script passes the "Abrasive/Solids" check box as [solids]:
    without a mandate a ticked box gives arrangement 3 for every fluid type
    and every other input. *)
Theorem recommend_abrasive (i : inputs) :
  mandated_arrangement i = PyNone -> abrasive i = true ->
  exists r, recommend i = Returns r /\ arrangement r = PyInt 3.
Proof.
  intros Hm Ha. destruct (recommend_fields i) as (r & E & _ & _ & _ & A & _).
  exists r. split; [exact E |]. rewrite A, Hm, Ha.
  rewrite get_arrangement_unmandated.
  match goal with
  | |- (if ?c || _ then _ else _) = _ => destruct c; [reflexivity |]
  end.
  cbn [orb]. now rewrite !orb_true_r.
Qed.

Lemma recommend_abrasive_witness :
  exists r,
    recommend
      (Inputs 15 100 10 "Hydrocarbon" false false false false true false
         false false false false false false false false false false false
         false PyNone) = Returns r /\
    arrangement r = PyInt 3.
Proof.
  apply (recommend_abrasive
           (Inputs 15 100 10 "Hydrocarbon" false false false false true false
              false false false false false false false false false false
              false false PyNone)); reflexivity.
Defined.

(** X21. For every input, any fluid type string included, the script's
    fluid group is one of the three group names and its seal type is the
    entry of that group's table: the last [return] of [get_seal_type] is
    never reached from the script, and the seal type is one of the four
    seal type names. *)
Theorem recommend_seal_type_from_table (i : inputs) :
  exists r fg,
    recommend i = Returns r /\
    fluid_group r = group_name fg /\
    seal_type r = seal_name (selectSealType fg (temperature i) (pressure i)) /\
    In (seal_type r) ["Type A"; "Type B"; "Type C"; "Engineered System"].
Proof.
  destruct (recommend_fields i) as (r & E & _ & F & S & _).
  destruct (get_fluid_type_group_valid (fluid_type i) (is_flashing i))
    as [fg G].
  exists r, fg. split; [exact E |]. rewrite <- F in G.
  split; [exact G |].
  assert (T : seal_type r =
              seal_name (selectSealType fg (temperature i) (pressure i))).
  { rewrite S, G. unfold get_seal_type.
    destruct (group_dispatch fg) as (E1 & E2 & E3). rewrite E1, E2, E3.
    destruct fg; cbn [selectSealType]; rewrite !lt_lit_dec; unfold inject_Z;
      repeat match goal with
        | |- context [Qlt_le_dec ?x ?y] => destruct (Qlt_le_dec x y)
        end; reflexivity. }
  split; [exact T |]. rewrite T.
  destruct (selectSealType fg (temperature i) (pressure i)); cbn; tauto.
Qed.

(** X22. Without a mandate a temperature above 260 degrees gives
    arrangement 3, a category other than 1, and the barrier fluid of the
    high band: the synthetic oil for the fluid type "Hydrocarbon". *)
Theorem recommend_hot (i : inputs) :
  mandated_arrangement i = PyNone -> (260 < temperature i)%Q ->
  exists r, recommend i = Returns r /\
            arrangement r = PyInt 3 /\ category r <> Some 1 /\
            (fluid_type i = "Hydrocarbon" ->
             barrier_fluid r = "Synthetic-based oil").
Proof.
  intros Hm Ht. destruct (recommend_fields i) as (r & E & C & _ & _ & A & B).
  exists r. split; [exact E |].
  assert (G : gt_lit (temperature i) 260 = true) by now apply gt_lit_true.
  assert (A3 : arrangement r = PyInt 3).
  { rewrite A, Hm, get_arrangement_unmandated, G.
    match goal with
    | |- (if ?c || _ then _ else _) = _ => destruct c; [reflexivity |]
    end.
    cbn [orb]. now rewrite !orb_true_r. }
  split; [exact A3 |]. split.
  - intros C1. rewrite C1 in C.
    rewrite get_seal_category_unfold in C.
    assert (L : le_lit (temperature i) 260 = false) by now apply le_lit_false.
    rewrite L, andb_false_r in C. cbn [andb] in C.
    destruct (le_lit (pressure i) 40 && le_lit (temperature i) 400
              && le_lit (speed i) 25);
      [discriminate C |].
    destruct (le_lit (pressure i) 100 && le_lit (temperature i) 400
              && le_lit (speed i) 25); discriminate C.
  - intros F. rewrite B, A3, F. cbn [py_in existsb py_eq Z.eqb orb].
    unfold temp_range.
    assert (L1 : lt_lit (temperature i) 70 = false).
    { apply lt_lit_false. unfold inject_Z in *. lra. }
    assert (L2 : lt_lit (temperature i) 150 = false).
    { apply lt_lit_false. unfold inject_Z in *. lra. }
    rewrite L1, L2. reflexivity.
Qed.

Lemma recommend_hot_witness :
  exists r,
    recommend
      (Inputs 15 300 10 "Hydrocarbon" false false false false false false
         false false false false false false false false false false false
         false PyNone) = Returns r /\
    arrangement r = PyInt 3 /\ category r <> Some 1 /\
    ("Hydrocarbon" = "Hydrocarbon" -> barrier_fluid r = "Synthetic-based oil").
Proof.
  apply (recommend_hot
           (Inputs 15 300 10 "Hydrocarbon" false false false false false
              false false false false false false false false false false
              false false false PyNone)).
  - reflexivity.
  - unfold Qlt; simpl; lia.
Defined.

Example run_app_default :
  run_app default_inputs =
  Returns
    [ Divider; Subheader "Seal Recommendation";
      Success "*Category 1*: General Service Conditions";
      Success "*Seal Type*: Type A";
      Success "*Single Seal (Arrangement 1)*";
      Expander "📖 Standard Requirements" true
        [ Markdown (String.concat nl
            [ EmptyString;
              "        ### Category 1 Requirements (Sheet 2)";
              "        - *Max Pressure*: 20 bar g";
              "        - *Max Temperature*: 260 °C";
              "        - *Max Speed*: 20 m/s";
              "        ";
              "        ### Type A Seal Features:";
              "        - Elastomer secondary seals";
              "        ";
              "        ";
              "        ";
              "        ### Arrangement 1 Requirements:";
              "        - No auxiliary system required";
              "        ";
              "        ";
              "        ";
              "        " ]) ];
      Divider; Caption footer_text ].
Proof. vm_compute. reflexivity. Qed.

(** ** Properties of the display code *)

(** The category is [None] exactly beyond the limits of tier 3, and one of
    1, 2, 3 otherwise. *)
Lemma get_seal_category_scope (p t s : Q) :
  ((100 < p \/ 400 < t \/ 25 < s)%Q /\
   get_seal_category p t s = Returns None) \/
  (~ (100 < p \/ 400 < t \/ 25 < s)%Q /\
   exists c, (c = 1 \/ c = 2 \/ c = 3) /\
             get_seal_category p t s = Returns (Some c)).
Proof.
  rewrite get_seal_category_unfold.
  destruct (tier_test p t s 20 260 20) as [A1 B1];
    destruct (tier_test p t s 40 400 25) as [A2 B2];
    destruct (tier_test p t s 100 400 25) as [A3 B3].
  destruct (le_lit p 20 && le_lit t 260 && le_lit s 20);
    [| destruct (le_lit p 40 && le_lit t 400 && le_lit s 25);
       [| destruct (le_lit p 100 && le_lit t 400 && le_lit s 25)]].
  all: repeat match goal with
         | H : true = true -> _ |- _ => specialize (H eq_refl)
         | H : false = false -> _ |- _ => specialize (H eq_refl)
         | H : true = false -> _ |- _ => clear H
         | H : false = true -> _ |- _ => clear H
         end; unfold inject_Z in *.
  - right. split; [intuition lra | exists 1; auto].
  - right. split; [intuition lra | exists 2; auto].
  - right. split; [intuition lra | exists 3; auto].
  - left. split; [assumption | reflexivity].
Qed.

(** The calls made for a recommendation with a category. *)
Lemma display_in_scope (r : recommendation) (c : Z) :
  category r = Some c -> c = 1 \/ c = 2 \/ c = 3 ->
  exists title text,
    display r =
    Returns
      ([ Divider; Subheader "Seal Recommendation";
         Success title;
         Success (String.append "*Seal Type*: " (seal_type r));
         Success (String.concat EmptyString
                    ["*"; str_or_none (arr_desc (arrangement r)); "*"]) ]
       ++ (if py_in (arrangement r) [PyInt 2; PyInt 3]
           then [Info (String.append "*Barrier/Buffer Fluid*: "
                         (barrier_fluid r))]
           else [])
       ++ [ Expander "📖 Standard Requirements" true
              (Markdown text ::
               (if py_eq (arrangement r) (PyInt 3)
                then [Markdown barrier_requirements_text]
                else []));
            Divider; Caption footer_text ])%list /\
    In title ["*Category 1*: General Service Conditions";
              "*Category 2*: Severe Service Conditions";
              "*Category 3*: Extreme Service Conditions"].
Proof.
  intros Hc Hr. unfold display, requirements_text, limit_of. rewrite Hc.
  destruct limit_values as (E1 & E2 & E3 & E4 & E5 & E6 & E7 & E8 & E9).
  destruct Hr as [-> | [-> | ->]];
    rewrite ?E1, ?E2, ?E3, ?E4, ?E5, ?E6, ?E7, ?E8, ?E9;
    cbn [mbind outcome_bind truthy category_value Z.eqb negb];
    do 2 eexists;
    (split; [destruct (py_in (arrangement r) [PyInt 2; PyInt 3]); reflexivity
            | vm_compute; tauto]).
Qed.

(** X23. The page is built without [KeyError] for every input: a category
    that is displayed is always a key of [CATEGORY_LIMITS] and of the table
    of descriptions. *)
Theorem run_app_returns (i : inputs) :
  exists events, run_app i = Returns events.
Proof.
  unfold run_app. destruct (recommend_fields i) as (r & E & C & _).
  rewrite E. cbn [mbind outcome_bind].
  destruct (get_seal_category_scope (pressure i) (temperature i) (speed i))
    as [[_ N] | [_ (c & Hc & S)]].
  - assert (Cr : category r = None) by congruence.
    unfold display. rewrite Cr. eexists. reflexivity.
  - assert (Cr : category r = Some c) by congruence.
    destruct (display_in_scope r c Cr Hc) as (title & text & D & _).
    rewrite D. eexists. reflexivity.
Qed.

(** X24. The page consists of the out-of-scope error alone, between the
    heading and the footer, exactly when the pressure is above 100, the
    temperature above 400 or the speed above 25; the seal type and the
    arrangement computed for such an input are not shown. *)
Theorem run_app_out_of_scope (i : inputs) :
  run_app i =
    Returns [ Divider; Subheader "Seal Recommendation";
              Error out_of_scope_text; Divider; Caption footer_text ] <->
  (100 < pressure i \/ 400 < temperature i \/ 25 < speed i)%Q.
Proof.
  unfold run_app. destruct (recommend_fields i) as (r & E & C & _).
  rewrite E. cbn [mbind outcome_bind].
  destruct (get_seal_category_scope (pressure i) (temperature i) (speed i))
    as [[X N] | [X (c & Hc & S)]].
  - assert (Cr : category r = None) by congruence.
    unfold display. rewrite Cr. split; [intros _; exact X | reflexivity].
  - assert (Cr : category r = Some c) by congruence.
    destruct (display_in_scope r c Cr Hc) as (title & text & D & _).
    rewrite D. split; [discriminate | contradiction].
Qed.

(** The arrangement the script computes under the options of the select
    box. *)
Lemma recommend_arrangement_options (i : inputs) :
  In (mandated_arrangement i) mandate_options ->
  exists r,
    recommend i = Returns r /\
    ((mandated_arrangement i = PyNone /\
      (arrangement r = PyInt 1 \/ arrangement r = PyInt 3)) \/
     (arrangement r = PyStr "Arrangement 1" \/
      arrangement r = PyStr "Arrangement 2" \/
      arrangement r = PyStr "Arrangement 3")).
Proof.
  intros Hm. destruct (recommend_fields i) as (r & E & _ & _ & _ & A & _).
  exists r. split; [exact E |].
  destruct Hm as [Hm | [Hm | [Hm | [Hm | []]]]]; rewrite <- Hm in A.
  - left. split; [now symmetry |]. rewrite A.
    apply get_arrangement_unmandated_1_or_3.
  - right. left. exact A.
  - right. right. left. exact A.
  - right. right. right. exact A.
Qed.

Ltac event_cases H :=
  cbn [In List.app] in H;
  repeat match type of H with
    | _ \/ _ => destruct H as [H | H]
    end;
  try contradiction; try discriminate H.

(** X25. With a label of the select box as mandate and an operating point
    within tier 3, the line that should name the arrangement reads
    "*None*" and no barrier fluid line is shown, whichever label it is. *)
Theorem run_app_label_mandate (i : inputs) :
  In (mandated_arrangement i)
     [PyStr "Arrangement 1"; PyStr "Arrangement 2"; PyStr "Arrangement 3"] ->
  ~ (100 < pressure i \/ 400 < temperature i \/ 25 < speed i)%Q ->
  exists events,
    run_app i = Returns events /\
    In (Success "*None*") events /\
    forall text, ~ In (Info text) events.
Proof.
  intros Hm Hs. unfold run_app.
  destruct (recommend_fields i) as (r & E & C & _ & _ & A & _).
  rewrite E. cbn [mbind outcome_bind].
  destruct (get_seal_category_scope (pressure i) (temperature i) (speed i))
    as [[X _] | [_ (c & Hc & S)]]; [contradiction |].
  assert (Cr : category r = Some c) by congruence.
  destruct (display_in_scope r c Cr Hc) as (title & text & D & _).
  rewrite D. eexists. split; [reflexivity |].
  assert (L : arrangement r = PyStr "Arrangement 1" \/
              arrangement r = PyStr "Arrangement 2" \/
              arrangement r = PyStr "Arrangement 3").
  { rewrite A. unfold get_arrangement.
    destruct Hm as [<- | [<- | [<- | []]]]; cbn; auto. }
  destruct L as [L | [L | L]]; rewrite L; cbn; (split; [tauto |]);
    intros t H; event_cases H.
Qed.

Lemma run_app_label_mandate_witness :
  exists events,
    run_app mandated_inputs = Returns events /\
    In (Success "*None*") events /\
    forall text, ~ In (Info text) events.
Proof.
  apply (run_app_label_mandate mandated_inputs).
  - cbn. tauto.
  - cbn. unfold Qlt. cbn. lia.
Defined.

(** X26. Under the options of the select box the page never names the
    tandem arrangement, and a barrier fluid line appears only when no
    mandate is selected; it then carries the recommendation for the fluid
    type and the band of the temperature. *)
Theorem run_app_select_box (i : inputs) :
  In (mandated_arrangement i) mandate_options ->
  exists events,
    run_app i = Returns events /\
    ~ In (Success "*Tandem Seals (Arrangement 2)*") events /\
    forall text,
      In (Info text) events ->
      mandated_arrangement i = PyNone /\
      text = String.append "*Barrier/Buffer Fluid*: "
               (get_barrier_fluid_recommendation (fluid_type i)
                  (temp_range (temperature i))).
Proof.
  intros Hm. unfold run_app.
  destruct (recommend_arrangement_options i Hm) as (r & E & Ha).
  destruct (recommend_fields i) as (r' & E' & C & _ & _ & _ & B).
  assert (r' = r) by congruence. subst r'. clear E'.
  rewrite E. cbn [mbind outcome_bind].
  destruct (get_seal_category_scope (pressure i) (temperature i) (speed i))
    as [[_ N] | [_ (c & Hc & S)]].
  - assert (Cr : category r = None) by congruence.
    unfold display. rewrite Cr. eexists. split; [reflexivity |].
    cbn [truthy category_value mbind outcome_bind].
    split; [intros H | intros t H]; event_cases H.
  - assert (Cr : category r = Some c) by congruence.
    destruct (display_in_scope r c Cr Hc) as (title & text & D & T).
    rewrite D. eexists. split; [reflexivity |].
    assert (NT : Success (String.append "*Seal Type*: " (seal_type r)) <>
                 Success "*Tandem Seals (Arrangement 2)*").
    { intros H. injection H as H. cbv [String.append] in H.
      discriminate H. }
    assert (TT : Success title <> Success "*Tandem Seals (Arrangement 2)*").
    { intros H. injection H as ->. cbn in T.
      destruct T as [T | [T | [T | []]]]; discriminate T. }
    destruct Ha as [[Hn [A | A]] | [A | [A | A]]]; rewrite A in B |- *; cbn;
      (split; [intros H | intros t H]); event_cases H;
      try (now elim NT); try (now elim TT).
    injection H as <-. split; [exact Hn | now rewrite B].
Qed.

Lemma run_app_select_box_witness :
  exists events,
    run_app default_inputs = Returns events /\
    ~ In (Success "*Tandem Seals (Arrangement 2)*") events /\
    forall text,
      In (Info text) events ->
      PyNone = PyNone /\
      text = String.append "*Barrier/Buffer Fluid*: "
               (get_barrier_fluid_recommendation "Hydrocarbon"
                  (temp_range 100)).
Proof.
  apply (run_app_select_box default_inputs).
  cbn. tauto.
Defined.

(** ** The two classifications of the fluid *)

(** X27. [get_fluid_type_group] compares the fluid type with "Hydrocarbon"
    for equality while [get_barrier_fluid_recommendation] searches it for
    that substring: a fluid type that contains "Hydrocarbon" without being
    equal to it is grouped as "Nonhydrocarbon" and still gets an oil, never
    the water and glycol mixture, as barrier fluid. *)
Theorem fluid_classifications_disagree (fluid_type band : string)
    (is_flashing : bool) :
  fluid_type <> "Hydrocarbon" ->
  (exists pre post,
     fluid_type = String.append pre (String.append "Hydrocarbon" post)) ->
  get_fluid_type_group fluid_type is_flashing = "Nonhydrocarbon" /\
  In (get_barrier_fluid_recommendation fluid_type band)
     ["Mineral oil (2-10 cSt at operating temp)";
      "Paraffin-based high purity oil"; "Synthetic-based oil"].
Proof.
  intros N C. apply str_contains_spec in C. split.
  - unfold get_fluid_type_group.
    destruct (String.eqb_spec fluid_type "Hydrocarbon"); [contradiction |].
    reflexivity.
  - unfold get_barrier_fluid_recommendation. rewrite C.
    destruct (String.eqb band "Low"); [cbn; tauto |].
    destruct (String.eqb band "Medium"); cbn; tauto.
Qed.

Lemma fluid_classifications_disagree_witness :
  get_fluid_type_group "Light Hydrocarbon" true = "Nonhydrocarbon" /\
  In (get_barrier_fluid_recommendation "Light Hydrocarbon" "Low")
     ["Mineral oil (2-10 cSt at operating temp)";
      "Paraffin-based high purity oil"; "Synthetic-based oil"].
Proof.
  apply (fluid_classifications_disagree "Light Hydrocarbon" "Low" true).
  - discriminate.
  - exists "Light ", EmptyString. reflexivity.
Defined.
